(** * The philosopher clock: label mapping, phrase formatting, speech queue

    A shallow embedding of [Funny.py]: the hour-to-philosopher mapping,
    the phrase formatter, the hand angles of [draw_hands], the GUI
    callbacks [update_clock], [mute_now] and [quit_app] over the shared
    speech queue, and the speech worker [tts_worker] as a transition
    system.

    Conventions.
    - Python [int] is [Z]; [%] is floored, as [Z.modulo] is.
    - Python [str] is [string], the UTF-8 bytes of the text.  The only
      characters the code inspects are ASCII (braces, digits, sign), and
      no byte of a multi-byte UTF-8 sequence is ASCII.
    - Python [float] is IEEE binary64, as Rocq's primitive [float] is.
    - A raised exception is the [Raise] case of [res]. *)

From Stdlib Require Import ZArith Lia Ascii String DecimalString QArith Qabs.
From Stdlib Require Import Floats.
From stdpp Require Import base option list strings gmap.

Local Open Scope Z_scope.

(** ** Exceptions *)

Inductive exn : Type :=
  | IndexError
  | KeyError (k : string)
  | ValueError
  | Full
  | Empty
  | Unsupported.

Inductive res (A : Type) : Type :=
  | Ok (a : A)
  | Raise (e : exn).
Arguments Ok {A} a.
Arguments Raise {A} e.

Definition bind {A B} (r : res A) (k : A -> res B) : res B :=
  match r with
  | Ok a => k a
  | Raise e => Raise e
  end.

Notation "x <- r ;; k" := (bind r (fun x => k))
  (at level 100, r at next level, right associativity, only parsing).

Definition is_ok {A} (r : res A) : bool :=
  match r with Ok _ => true | Raise _ => false end.

(** ** Configuration *)

Definition PHILOSOPHERS : list string :=
  [ "Leibniz"; "Kant"; "Hegel"; "Fichte"; "Schopenhauer"; "Nietzsche";
    "Marx"; "Engels"; "Herder"; "Lessing"; "Heidegger"; "Habermas" ].

(** [l[i]] of a Python list: a negative index counts from the end, an
    index out of range raises [IndexError]. *)
Definition py_index {A} (l : list A) (i : Z) : res A :=
  let n := Z.of_nat (length l) in
  let j := if i <? 0 then i + n else i in
  if (0 <=? j) && (j <? n) then
    match l !! Z.to_nat j with
    | Some x => Ok x
    | None => Raise IndexError
    end
  else Raise IndexError.

(** ** Helper functions *)

Definition hour_to_philosopher (hour24 : Z) : res string :=
  let h12 := hour24 mod 12 in
  let h12 := if h12 =? 0 then 12 else h12 in
  let idx := (h12 - 1) mod 12 in
  py_index PHILOSOPHERS idx.


(** ** Strings: [str(int)], [str.zfill], [str.format] *)

(** [str(n)] for an [int]: decimal digits, a leading [-] when negative. *)
Definition str (n : Z) : string := NilZero.string_of_int (Z.to_int n).

Fixpoint zeros (n : nat) : string :=
  match n with
  | O => ""
  | S n' => String "0" (zeros n')
  end.

(** [s.zfill(width)]: left-pad with ["0"] up to [width], after the sign
    when [s] starts with one. *)
Definition zfill (s : string) (width : Z) : string :=
  let len := Z.of_nat (String.length s) in
  if width <=? len then s
  else
    let fill := zeros (Z.to_nat (width - len)) in
    match s with
    | String c rest =>
        if (c =? "+")%char || (c =? "-")%char
        then String c (fill +:+ rest)
        else fill +:+ s
    | EmptyString => fill
    end.

Definition is_digit (c : ascii) : bool :=
  (48 <=? Z.of_N (N_of_ascii c)) && (Z.of_N (N_of_ascii c) <=? 57).

Fixpoint all_digits (s : string) : bool :=
  match s with
  | EmptyString => true
  | String c s' => is_digit c && all_digits s'
  end.

(** The value a replacement field [{name}] stands for when [format] is
    called with keyword arguments [kw] only: an empty or numeric name
    refers to a positional argument, and there is none. *)
Definition get_field (kw : gmap string string) (name : string) : res string :=
  if all_digits name then Raise IndexError
  else match kw !! name with
       | Some v => Ok v
       | None => Raise (KeyError name)
       end.

(** [template.format] called with the keyword arguments [kw].  [field] is [Some name] while a replacement
    field is open, [name] being the part read so far.  Doubled braces are
    escapes; attribute and index access, conversions ([!]) and format
    specifications ([:]) are outside this model and answer
    [Unsupported]. *)
Fixpoint format_go (kw : gmap string string) (t : string)
    (field : option string) : res string :=
  match field with
  | None =>
      match t with
      | EmptyString => Ok ""
      | String c rest =>
          if (c =? "{")%char then
            match rest with
            | String c' rest' =>
                if (c' =? "{")%char
                then r <- format_go kw rest' None ;; Ok (String "{" r)
                else format_go kw rest (Some "")
            | EmptyString => Raise ValueError
            end
          else if (c =? "}")%char then
            match rest with
            | String c' rest' =>
                if (c' =? "}")%char
                then r <- format_go kw rest' None ;; Ok (String "}" r)
                else Raise ValueError
            | EmptyString => Raise ValueError
            end
          else r <- format_go kw rest None ;; Ok (String c r)
      end
  | Some name =>
      match t with
      | EmptyString => Raise ValueError
      | String c rest =>
          if (c =? "}")%char then
            v <- get_field kw name ;;
            r <- format_go kw rest None ;;
            Ok (v +:+ r)
          else if (c =? "{")%char then Raise ValueError
          else if (c =? "!")%char || (c =? ":")%char
                  || (c =? ".")%char || (c =? "[")%char
          then Raise Unsupported
          else format_go kw rest (Some (name +:+ String c ""))
      end
  end.

Definition str_format (template : string) (kw : gmap string string)
    : res string :=
  format_go kw template None.

(** ** Phrases *)

Definition PHRASES : gmap string string :=
  list_to_map
    [ ("Leibniz",
       "Ah, the best of all possible times: {h} hours, {m} minutes and {s} seconds.");
      ("Kant",
       "By duty I declare: it is {h} hours, {m} minutes and {s} seconds.");
      ("Hegel",
       "The time is (in dialectical motion) {h}:{m}:{s}.");
      ("Fichte",
       "Consciousness proclaims: {h} hours, {m} minutes, {s} seconds.");
      ("Schopenhauer",
       "Time, the will's annoying companion: {h}h {m}m {s}s.");
      ("Nietzsche",
       "Behold the hour: {h} hours, {m} minutes, {s} seconds — become who you are.");
      ("Marx",
       "Workers of the world note the time: {h}:{m}:{s}.");
      ("Engels",
       "Material conditions indicate: {h} hours {m} minutes {s} seconds.");
      ("Herder",
       "Time tells culture: it's {h} hours and {m} minutes, {s} seconds.");
      ("Lessing",
       "In the theatre of life — the clock says {h}:{m}:{s}.");
      ("Heidegger",
       "Time is (being): {h} hours, {m} minutes, {s} seconds.");
      ("Habermas",
       "Communicative act: the time is {h}:{m}:{s}.") ].

Definition DEFAULT_TEMPLATE : string := "It's {h}:{m}:{s}.".

(** [d.get(k, default)] *)
Definition dict_get (d : gmap string string) (k default : string) : string :=
  match d !! k with
  | Some v => v
  | None => default
  end.

Definition time_kwargs (h m s : Z) : gmap string string :=
  {[ "h" := str h; "m" := zfill (str m) 2; "s" := zfill (str s) 2 ]}.

(** [format_time_phrase] reads the module-level dictionary [PHRASES];
    [format_time_phrase_in] is the same body with the dictionary it
    reads made explicit. *)
Definition format_time_phrase_in (phrases : gmap string string)
    (h m s : Z) : res string :=
  phil <- hour_to_philosopher h ;;
  let template := dict_get phrases phil DEFAULT_TEMPLATE in
  body <- str_format template (time_kwargs h m s) ;;
  Ok (phil +:+ " says: " +:+ body).

Definition format_time_phrase (h m s : Z) : res string :=
  format_time_phrase_in PHRASES h m s.






(** ** Hand angles *)

Record datetime : Type := mk_datetime {
  hour : Z;
  minute : Z;
  second : Z
}.

(** Conversion of an [int] operand in mixed arithmetic.  It is exact for
    [|z| < 2^53], which covers every clock reading. *)
Definition float_of_int (z : Z) : float :=
  if z <? 0 then (- PrimFloat.of_uint63 (Uint63.of_Z (- z)))%float
  else PrimFloat.of_uint63 (Uint63.of_Z z).

Record hands : Type := mk_hands {
  hour_angle : float;
  minute_angle : float;
  second_angle : Z
}.

(** The angle computation of [draw_hands]; what is then drawn on the
    canvas is outside the model.  [second_angle] is an [int] product. *)
Definition draw_hands (now : datetime) : hands :=
  let h := hour now in
  let m := minute now in
  let s := second now in
  let hour_in_12 := (float_of_int (h mod 12) + float_of_int m / 60)%float in
  let hour_angle := (hour_in_12 * float_of_int 30)%float in
  let minute_angle :=
    ((float_of_int m + float_of_int s / 60) * float_of_int 6)%float in
  let second_angle := s * 6 in
  mk_hands hour_angle minute_angle second_angle.

(** The exact rational value of a finite binary64 number. *)
Definition Q_of_float (f : float) : option Q :=
  match Prim2SF f with
  | S754_zero _ => Some 0%Q
  | S754_finite sg m e =>
      let n := if sg then Z.neg m else Z.pos m in
      Some (if 0 <=? e then inject_Z (n * 2 ^ e)
            else Qmake n (Z.to_pos (2 ^ (- e))))
  | _ => None
  end.

(** The formulas of the specification, in exact rational arithmetic. *)
Definition spec_hour_angle (h m : Z) : Q :=
  ((inject_Z (h mod 12) + inject_Z m / 60) * 30)%Q.

Definition spec_minute_angle (m s : Z) : Q :=
  ((inject_Z m + inject_Z s / 60) * 6)%Q.

Definition spec_second_angle (s : Z) : Q := (inject_Z s * 6)%Q.

(** [f] is finite and at most [2^-k] away from [q]. *)
Definition within (k : Z) (f : float) (q : Q) : bool :=
  match Q_of_float f with
  | Some x => Qle_bool (Qabs (x - q)) (Qmake 1 (Z.to_pos (2 ^ k)))
  | None => false
  end.

Definition exactly (f : float) (q : Q) : bool :=
  match Q_of_float f with
  | Some x => Qeq_bool x q
  | None => false
  end.

(** ** The speech queue *)

(** A queued item is a text to speak or the sentinel [None]. *)
Definition item : Type := option string.

(** [queue.Queue]: [maxsize <= 0] means no bound; [unfinished_tasks]
    counts the items put and not yet reported by [task_done]. *)
Record Queue : Type := mk_Queue {
  maxsize : Z;
  items : list item;
  unfinished_tasks : Z
}.

(** [queue.Queue()] *)
Definition new_queue : Queue := mk_Queue 0 [] 0.

Definition qsize (q : Queue) : Z := Z.of_nat (length (items q)).

Definition empty (q : Queue) : bool := qsize q =? 0.

Definition put_nowait (q : Queue) (x : item) : res Queue :=
  if (0 <? maxsize q) && (maxsize q <=? qsize q) then Raise Full
  else Ok (mk_Queue (maxsize q) (items q ++ [x]) (unfinished_tasks q + 1)).

Definition get_nowait (q : Queue) : res (item * Queue) :=
  match items q with
  | [] => Raise Empty
  | x :: rest => Ok (x, mk_Queue (maxsize q) rest (unfinished_tasks q))
  end.

Definition task_done (q : Queue) : res Queue :=
  let unfinished := unfinished_tasks q - 1 in
  if unfinished <? 0 then Raise ValueError
  else Ok (mk_Queue (maxsize q) (items q) unfinished).

(** ** The clock window *)

Record PhilosopherClock : Type := mk_PhilosopherClock {
  speak_var : bool;
  last_spoken_second : Z
}.

(** The fields as [__init__] sets them. *)
Definition init_clock : PhilosopherClock := mk_PhilosopherClock true (-1).

Definition MUTED_NOTICE : string :=
  "Muted. Philosophy will be silent, temporarily.".

(** One firing of [update_clock] at the reading [now], on the window
    [self] and the shared queue [q].  Re-arming the timer with [after]
    is outside the model. *)
Definition update_clock (now : datetime) (self : PhilosopherClock)
    (q : Queue) : res (PhilosopherClock * Queue) :=
  let _ := draw_hands now in
  if speak_var self then
    let cur_second := second now in
    if negb (cur_second =? last_spoken_second self) then
      phrase <- format_time_phrase (hour now) (minute now) (second now) ;;
      q' <- match put_nowait q (Some phrase) with
            | Raise Full => Ok q
            | r => r
            end ;;
      Ok (mk_PhilosopherClock (speak_var self) cur_second, q')
    else Ok (self, q)
  else Ok (self, q).

(** The loop of [mute_now]: while the queue is not empty, take an item
    and report it done.  [fuel] bounds the iterations; [drain] gives as
    many as there are items. *)
Fixpoint drain_loop (fuel : nat) (q : Queue) : res Queue :=
  if empty q then Ok q
  else
    match fuel with
    | O => Ok q
    | S fuel' =>
        match get_nowait q with
        | Ok (_, q1) => q2 <- task_done q1 ;; drain_loop fuel' q2
        | Raise Empty => Ok q
        | Raise e => Raise e
        end
    end.

Definition drain (q : Queue) : res Queue :=
  drain_loop (length (items q)) q.

Definition mute_now (self : PhilosopherClock) (q : Queue)
    : res (PhilosopherClock * Queue) :=
  q1 <- drain q ;;
  q2 <- (if speak_var self then put_nowait q1 (Some MUTED_NOTICE)
         else Ok q1) ;;
  Ok (mk_PhilosopherClock false (last_spoken_second self), q2).

Definition quit_app (q : Queue) : Queue :=
  match put_nowait q None with
  | Ok q' => q'
  | Raise _ => q
  end.

(** Successive ticks at the readings [nows]. *)
Fixpoint ticks (nows : list datetime) (self : PhilosopherClock)
    (q : Queue) : res (PhilosopherClock * Queue) :=
  match nows with
  | [] => Ok (self, q)
  | now :: rest =>
      st <- update_clock now self q ;;
      ticks rest (fst st) (snd st)
  end.

(** Puts in order, from the left. *)
Fixpoint put_all (q : Queue) (xs : list item) : res Queue :=
  match xs with
  | [] => Ok q
  | x :: rest => q' <- put_nowait q x ;; put_all q' rest
  end.

(** ** The speech worker *)

(** Where the thread running [tts_worker] stands: [Idle] at [q.get()],
    [Speaking text] inside the [try] block, [Stopped] after [break].
    [Crashed] stands for an exception that leaves the loop: only
    [q.task_done()] is outside the [try]. *)
Inductive worker_state : Type :=
  | Idle
  | Speaking (text : string)
  | Stopped
  | Crashed.

Inductive event : Type :=
  | EvPut (x : item)       (* GUI thread: a [put_nowait] that succeeded *)
  | EvDiscard (x : item)   (* GUI thread, [mute_now]: [get_nowait]; [task_done] *)
  | EvSay (text : string)  (* worker: [text] dequeued, the engine is called *)
  | EvReturn (ok : bool)   (* worker: the engine returned ([true]) or raised an
                              exception that was caught; [task_done] *)
  | EvBreak.               (* worker: sentinel dequeued, loop left *)

(** One move of [tts_worker].  [q.get()] blocks on an empty queue: no
    move.  [speak_ok] tells whether [say]/[runAndWait] return normally. *)
Definition worker_step (w : worker_state) (q : Queue) (speak_ok : bool)
    : option (event * worker_state * Queue) :=
  match w with
  | Idle =>
      match get_nowait q with
      | Ok (None, q') => Some (EvBreak, Stopped, q')
      | Ok (Some text, q') => Some (EvSay text, Speaking text, q')
      | Raise _ => None
      end
  | Speaking _ =>
      match task_done q with
      | Ok q' => Some (EvReturn speak_ok, Idle, q')
      | Raise _ => Some (EvReturn speak_ok, Crashed, q)
      end
  | Stopped => None
  | Crashed => None
  end.

(** The worker interleaved with the queue operations of the GUI
    thread. *)
Inductive step : worker_state * Queue -> event -> worker_state * Queue -> Prop :=
  | step_put w q x q' :
      put_nowait q x = Ok q' ->
      step (w, q) (EvPut x) (w, q')
  | step_discard w q x q1 q2 :
      get_nowait q = Ok (x, q1) ->
      task_done q1 = Ok q2 ->
      step (w, q) (EvDiscard x) (w, q2)
  | step_worker w q ok ev w' q' :
      worker_step w q ok = Some (ev, w', q') ->
      step (w, q) ev (w', q').

(** [run st tr st']: from [st] the events [tr] happen, in this order, and
    lead to [st']. *)
Inductive run (st : worker_state * Queue)
    : list event -> worker_state * Queue -> Prop :=
  | run_nil : run st [] st
  | run_snoc tr st1 ev st2 :
      run st tr st1 -> step st1 ev st2 -> run st (tr ++ [ev]) st2.

(** The change an event makes to the number of calls in flight. *)
Definition delta (ev : event) : Z :=
  match ev with
  | EvSay _ => 1
  | EvReturn _ => -1
  | _ => 0
  end.

(** Observations on a trace. *)
Definition put_of (ev : event) : option item :=
  match ev with EvPut x => Some x | _ => None end.

Definition taken_of (ev : event) : option item :=
  match ev with
  | EvSay text => Some (Some text)
  | EvBreak => Some None
  | EvDiscard x => Some x
  | _ => None
  end.

Definition said_of (ev : event) : option string :=
  match ev with EvSay text => Some text | _ => None end.

Definition is_discard (ev : event) : bool :=
  match ev with EvDiscard _ => true | _ => false end.

Definition is_worker_event (ev : event) : bool :=
  match ev with EvSay _ | EvReturn _ | EvBreak => true | _ => false end.

(** Items put, items taken out, texts handed to the engine, in order. *)
Definition enqueued (tr : list event) : list item := omap put_of tr.
Definition dequeued (tr : list event) : list item := omap taken_of tr.
Definition spoken (tr : list event) : list string := omap said_of tr.

(** Calls to the engine that have not returned yet. *)
Fixpoint in_flight (tr : list event) : Z :=
  match tr with
  | [] => 0
  | ev :: rest => delta ev + in_flight rest
  end.

Definition busy (w : worker_state) : Z :=
  match w with Speaking _ => 1 | _ => 0 end.

Definition stop_mark (w : worker_state) : list item :=
  match w with Stopped => [None] | _ => [] end.

#[global] Instance event_eq_dec : EqDecision event.
Proof. solve_decision. Defined.

(** The state an event leads to, when it can happen: [step] as a
    function of the event. *)
Definition step_fn (st : worker_state * Queue) (ev : event)
    : option (worker_state * Queue) :=
  let '(w, q) := st in
  match ev with
  | EvPut x =>
      match put_nowait q x with
      | Ok q' => Some (w, q')
      | Raise _ => None
      end
  | EvDiscard x =>
      match get_nowait q with
      | Ok (y, q1) =>
          if decide (x = y) then
            match task_done q1 with
            | Ok q2 => Some (w, q2)
            | Raise _ => None
            end
          else None
      | Raise _ => None
      end
  | EvSay _ | EvBreak =>
      match worker_step w q true with
      | Some (ev', w', q') => if decide (ev = ev') then Some (w', q') else None
      | None => None
      end
  | EvReturn ok =>
      match worker_step w q ok with
      | Some (ev', w', q') => if decide (ev = ev') then Some (w', q') else None
      | None => None
      end
  end.

Fixpoint replay (st : worker_state * Queue) (tr : list event)
    : option (worker_state * Queue) :=
  match tr with
  | [] => Some st
  | ev :: rest =>
      match step_fn st ev with
      | Some st' => replay st' rest
      | None => None
      end
  end.

(** Runs the worker alone on a queue until it blocks or stops; the
    engine succeeds on every text.  Returns the texts said. *)
Fixpoint worker_alone (fuel : nat) (w : worker_state) (q : Queue)
    : list string * worker_state * Queue :=
  match fuel with
  | O => ([], w, q)
  | S fuel' =>
      match worker_step w q true with
      | Some (ev, w', q') =>
          let '(said, w'', q'') := worker_alone fuel' w' q' in
          (match said_of ev with Some t => t :: said | None => said end,
           w'', q'')
      | None => ([], w, q)
      end
  end.

(** ** Decidable equality of results *)

#[global] Instance exn_eq_dec : EqDecision exn.
Proof. solve_decision. Defined.

#[global] Instance res_eq_dec {A} `{EqDecision A} : EqDecision (res A).
Proof. solve_decision. Defined.

(** ** The wording of the specification, for comparison with the code *)

(** The index the specification gives for an hour: [hour mod 12], with
    the hours 0 and 12 sent to 11. *)
Definition spec_label_index (h : Z) : Z :=
  if (h =? 0) || (h =? 12) then 11 else h mod 12.

(** The index the code uses: one less than the position on the dial. *)
Definition label_index (h : Z) : Z :=
  if h mod 12 =? 0 then 11 else h mod 12 - 1.

Definition digit (d : Z) : ascii := ascii_of_N (Z.to_N (48 + d)).

(** Exactly two decimal digits. *)
Definition two_digits (n : Z) : string :=
  String (digit (n / 10)) (String (digit (n mod 10)) "").

(** Decimal digits without padding, for [0 <= n < 100]. *)
Definition unpadded (n : Z) : string :=
  if n <? 10 then String (digit n) "" else two_digits n.

(** The literal text of a template, cut at its replacement fields: the
    text before the first field, between the fields, after the last.
    For templates without doubled braces. *)
Fixpoint literals_go (t : string) (inside : bool) (cur : string)
    : list string :=
  match t with
  | EmptyString => [cur]
  | String c rest =>
      if inside then
        if (c =? "}")%char then literals_go rest false ""
        else literals_go rest true ""
      else
        if (c =? "{")%char then cur :: literals_go rest true ""
        else literals_go rest false (cur +:+ String c "")
  end.

Definition literals (t : string) : list string := literals_go t false "".

(** ** The invariant of worker and queue *)

(** What holds of every reachable state of worker and queue. *)
Definition inv (tr : list event) (st : worker_state * Queue) : Prop :=
  enqueued tr = dequeued tr ++ items (snd st) /\
  in_flight tr = busy (fst st) /\
  Z.of_nat (length (items (snd st))) + busy (fst st)
    <= unfinished_tasks (snd st) /\
  fst st <> Crashed /\
  maxsize (snd st) = 0.

(** ** The canvas *)

Definition SIZE : Z := 500.
Definition RADIUS : Z := SIZE / 2 - 40.
Definition CENTER : Z := SIZE / 2.

(** A Python number: [int] or [float].  Arithmetic on two [int]s stays
    in [int]; a mixed operation converts the [int] operand. *)
Inductive num : Type :=
  | Int (z : Z)
  | Flt (f : float).

Definition to_float (x : num) : float :=
  match x with
  | Int z => float_of_int z
  | Flt f => f
  end.

Definition num_sub (a b : num) : num :=
  match a, b with
  | Int x, Int y => Int (x - y)
  | _, _ => Flt (to_float a - to_float b)%float
  end.

(** What a canvas item is.  Its options (width, colours, font, cap
    style) do not enter the model. *)
Inductive shape : Type :=
  | Oval
  | Line
  | Text (text : string).

Record canvas_item : Type := mk_item {
  item_id : Z;
  item_shape : shape;
  item_coords : list num;
  item_tags : list string
}.

(** A Tk canvas: the items in display order and the id the next item
    gets.  Ids are handed out from 1 on and never reused. *)
Record Canvas : Type := mk_Canvas {
  next_id : Z;
  canvas_items : list canvas_item
}.

Definition new_canvas : Canvas := mk_Canvas 1 [].

(** [create_oval], [create_line], [create_text]: the new item's id and
    the canvas with the item on top. *)
Definition create (c : Canvas) (sh : shape) (coords : list num)
    (tags : list string) : Z * Canvas :=
  (next_id c,
   mk_Canvas (next_id c + 1)
             (canvas_items c ++ [mk_item (next_id c) sh coords tags])).

(** [c.delete(id)] *)
Definition delete_id (c : Canvas) (id : Z) : Canvas :=
  mk_Canvas (next_id c)
            (filter (fun it => item_id it <> id) (canvas_items c)).

(** [c.delete(tag)] *)
Definition delete_tag (c : Canvas) (tag : string) : Canvas :=
  mk_Canvas (next_id c)
            (filter (fun it => tag ∉ item_tags it) (canvas_items c)).

(** The drawing state of the window: the canvas and the ids of the
    three hands, [None] before the first drawing. *)
Record Window : Type := mk_Window {
  canvas : Canvas;
  hour_hand : option Z;
  min_hand : option Z;
  sec_hand : option Z
}.

(** [if x:] for [x] an item id or [None]. *)
Definition truthy (x : option Z) : bool :=
  match x with
  | Some id => negb (id =? 0)
  | None => false
  end.

Definition delete_if (c : Canvas) (x : option Z) : Canvas :=
  match x with
  | Some id => if truthy x then delete_id c id else c
  | None => c
  end.

(** [now.strftime("%H:%M:%S")], for the fields of a [datetime]. *)
Definition strftime_HMS (now : datetime) : string :=
  zfill (str (hour now)) 2 +:+ ":" +:+ zfill (str (minute now)) 2
  +:+ ":" +:+ zfill (str (second now)) 2.

Fixpoint foldM {A B} (f : B -> A -> res B) (l : list A) (b : B) : res B :=
  match l with
  | [] => Ok b
  | a :: rest => b' <- f b a ;; foldM f rest b'
  end.

(* A decimal literal denotes the nearest binary64 number, as it does in
   Python. *)
Set Warnings "-inexact-float".

Section Drawing.

(** [math.radians], [math.cos], [math.sin]: functions on binary64 of
    which nothing is assumed. *)
Variables radians cos sin : float -> float.

Definition polar_to_cart (center_x center_y : Z) (angle_deg radius : num)
    : float * float :=
  let angle_rad := radians (to_float (num_sub angle_deg (Int 90))) in
  let x := (float_of_int center_x + to_float radius * cos angle_rad)%float in
  let y := (float_of_int center_y + to_float radius * sin angle_rad)%float in
  (x, y).

(** One round of the loop of [draw_face]: the mark and the name at
    position [i] of the dial. *)
Definition draw_mark (c : Canvas) (i : Z) : res Canvas :=
  let angle := i * 30 in
  let mark_outer := RADIUS - 8 in
  let mark_inner := RADIUS - 22 in
  let '(x1, y1) := polar_to_cart CENTER CENTER (Int angle) (Int mark_inner) in
  let '(x2, y2) := polar_to_cart CENTER CENTER (Int angle) (Int mark_outer) in
  let c := snd (create c Line [Flt x1; Flt y1; Flt x2; Flt y2] []) in
  let name_pos := RADIUS - 50 in
  let '(nx, ny) := polar_to_cart CENTER CENTER (Int angle) (Int name_pos) in
  let label_idx := (i + 11) mod 12 in
  name <- py_index PHILOSOPHERS label_idx ;;
  let c := snd (create c (Text name) [Flt nx; Flt ny] []) in
  Ok c.

Definition draw_face (c : Canvas) : res Canvas :=
  let c := snd (create c Oval
                  [Int (CENTER - RADIUS); Int (CENTER - RADIUS);
                   Int (CENTER + RADIUS); Int (CENTER + RADIUS)] []) in
  let c := snd (create c Oval
                  [Int (CENTER - 6); Int (CENTER - 6);
                   Int (CENTER + 6); Int (CENTER + 6)] []) in
  foldM draw_mark (seqZ 0 12) c.

(** [draw_hands] on the canvas: the old hands are deleted, the new ones
    drawn and their ids kept, the digital readout replaced.  The angles
    are those of [draw_hands] above. *)
Definition draw_hands_on (now : datetime) (win : Window) : Window :=
  let a := draw_hands now in
  let '(hx, hy) :=
    polar_to_cart CENTER CENTER (Flt (hour_angle a))
                  (Flt (float_of_int RADIUS * 0.5)) in
  let '(mx, my) :=
    polar_to_cart CENTER CENTER (Flt (minute_angle a))
                  (Flt (float_of_int RADIUS * 0.75)) in
  let '(sx, sy) :=
    polar_to_cart CENTER CENTER (Int (second_angle a))
                  (Flt (float_of_int RADIUS * 0.9)) in
  let c := canvas win in
  let c := delete_if c (hour_hand win) in
  let c := delete_if c (min_hand win) in
  let c := delete_if c (sec_hand win) in
  let '(hour_hand', c) :=
    create c Line [Int CENTER; Int CENTER; Flt hx; Flt hy] [] in
  let '(min_hand', c) :=
    create c Line [Int CENTER; Int CENTER; Flt mx; Flt my] [] in
  let '(sec_hand', c) :=
    create c Line [Int CENTER; Int CENTER; Flt sx; Flt sy] [] in
  let time_str := strftime_HMS now in
  let c := delete_tag c "digital" in
  let c := snd (create c (Text (time_str +:+ "  (24h format)"))
                  [Int CENTER; Int (SIZE - 20)] ["digital"]) in
  mk_Window c (Some hour_hand') (Some min_hand') (Some sec_hand').

(** The drawing part of [__init__]: the face on a new canvas, no hand
    yet. *)
Definition init_window : res Window :=
  c <- draw_face new_canvas ;;
  Ok (mk_Window c None None None).

(** The window after the hands were drawn at the readings [nows], one
    after the other. *)
Definition draw_hands_all (nows : list datetime) (win : Window) : Window :=
  fold_left (fun w now => draw_hands_on now w) nows win.

End Drawing.

(** ** Checks by evaluation *)

(** [r x y] for every [x] that comes before [y] in [l]. *)
Fixpoint all_pairs {A} (r : A -> A -> bool) (l : list A) : bool :=
  match l with
  | [] => true
  | x :: rest => forallb (r x) rest && all_pairs r rest
  end.

(** The hour angle [t] minutes after 0:00 or 12:00, the minute angle [t]
    seconds after the full hour. *)
Definition hour_angle_at (t : Z) : float :=
  hour_angle (draw_hands (mk_datetime (t / 60) (t mod 60) 0)).

Definition minute_angle_at (t : Z) : float :=
  minute_angle (draw_hands (mk_datetime 0 (t / 60) (t mod 60))).

(** A binary64 angle on the dial: at least 0, less than 360. *)
Definition on_dial (a : float) : bool :=
  PrimFloat.leb 0 a && PrimFloat.ltb a 360.

(** ** The canvas after drawing *)

Definition text_of (it : canvas_item) : option string :=
  match item_shape it with
  | Text text => Some text
  | _ => None
  end.

(** The items of the face keep the ids 1 to 26 and carry no tag. *)
Definition face_ok (face : list canvas_item) : bool :=
  forallb (fun it => (1 <=? item_id it) && (item_id it <=? 26)
                     && bool_decide (item_tags it = [])) face.

(** The three hands and the readout for the reading [now], with the ids
    [k] to [k + 3]. *)
Definition hand_items (radians cos sin : float -> float) (k : Z)
    (now : datetime) : list canvas_item :=
  let a := draw_hands now in
  let h := polar_to_cart radians cos sin CENTER CENTER
             (Flt (hour_angle a)) (Flt (float_of_int RADIUS * 0.5)) in
  let m := polar_to_cart radians cos sin CENTER CENTER
             (Flt (minute_angle a)) (Flt (float_of_int RADIUS * 0.75)) in
  let s := polar_to_cart radians cos sin CENTER CENTER
             (Int (second_angle a)) (Flt (float_of_int RADIUS * 0.9)) in
  [ mk_item k Line [Int CENTER; Int CENTER; Flt (fst h); Flt (snd h)] [];
    mk_item (k + 1) Line [Int CENTER; Int CENTER; Flt (fst m); Flt (snd m)] [];
    mk_item (k + 2) Line [Int CENTER; Int CENTER; Flt (fst s); Flt (snd s)] [];
    mk_item (k + 3) (Text (strftime_HMS now +:+ "  (24h format)"))
            [Int CENTER; Int (SIZE - 20)] ["digital"] ].

(** The window once the hands were drawn for [now] over the face
    [face], the first hand having the id [k]. *)
Definition drawn (radians cos sin : float -> float)
    (face : list canvas_item) (k : Z) (now : datetime) : Window :=
  mk_Window (mk_Canvas (k + 4) (face ++ hand_items radians cos sin k now))
            (Some k) (Some (k + 1)) (Some (k + 2)).

(** ** The program as a whole *)

Fixpoint mapM {A B} (f : A -> res B) (l : list A) : res (list B) :=
  match l with
  | [] => Ok []
  | a :: rest => b <- f a ;; bs <- mapM f rest ;; Ok (b :: bs)
  end.

(** The phrase for a reading. *)
Definition phrase_of (now : datetime) : res string :=
  format_time_phrase (hour now) (minute now) (second now).

(** The readings of [nows] whose second differs from the second of the
    reading announced before; [last] is the second announced last. *)
Fixpoint fresh (last : Z) (nows : list datetime) : list datetime :=
  match nows with
  | [] => []
  | now :: rest =>
      if second now =? last then fresh last rest
      else now :: fresh (second now) rest
  end.

(** What happens to the program: the timer fires at a reading, the user
    clicks the check box, "Mute Now" or "Quit", or the worker thread
    moves; [speak_ok] as in [worker_step]. *)
Inductive action : Type :=
  | ATick (now : datetime)
  | AToggle
  | AMute
  | AQuit
  | AWork (speak_ok : bool).

(** The state of the program: the window's fields, the worker, the
    queue; and, for the record, the texts handed to the speech engine
    so far. *)
Record Program : Type := mk_Program {
  clock : PhilosopherClock;
  worker : worker_state;
  tts_queue : Queue;
  said : list string
}.

(** The program once [__init__] has set the fields, before its first
    tick. *)
Definition init_program : Program :=
  mk_Program init_clock Idle new_queue [].

(** A worker that cannot move (it waits for an item, or has left its
    loop) leaves the state as it is.  [AQuit] is [quit_app] up to the
    destruction of the window. *)
Definition do_action (p : Program) (a : action) : res Program :=
  match a with
  | ATick now =>
      st <- update_clock now (clock p) (tts_queue p) ;;
      Ok (mk_Program (fst st) (worker p) (snd st) (said p))
  | AToggle =>
      Ok (mk_Program
            (mk_PhilosopherClock (negb (speak_var (clock p)))
                                 (last_spoken_second (clock p)))
            (worker p) (tts_queue p) (said p))
  | AMute =>
      st <- mute_now (clock p) (tts_queue p) ;;
      Ok (mk_Program (fst st) (worker p) (snd st) (said p))
  | AQuit =>
      Ok (mk_Program (clock p) (worker p) (quit_app (tts_queue p)) (said p))
  | AWork speak_ok =>
      match worker_step (worker p) (tts_queue p) speak_ok with
      | Some (ev, w', q') =>
          Ok (mk_Program (clock p) w' q'
                (said p ++ match said_of ev with
                           | Some text => [text]
                           | None => []
                           end))
      | None => Ok p
      end
  end.

Definition do_actions (acts : list action) (p : Program) : res Program :=
  foldM do_action acts p.

(** What the program may put in the queue: the phrase of a reading, the
    notice of [mute_now], the sentinel. *)
Definition expected_item (x : item) : Prop :=
  match x with
  | None => True
  | Some text =>
      text = MUTED_NOTICE \/ exists now, phrase_of now = Ok text
  end.

(** No brace in a string. *)
Fixpoint no_brace (s : string) : bool :=
  match s with
  | EmptyString => true
  | String c rest =>
      negb (c =? "{")%char && negb (c =? "}")%char && no_brace rest
  end.

(** What holds of the program after any actions: it is where a run of
    worker and queue leads, the run said what the program said, and
    only expected items were put. *)
Definition program_inv (p : Program) : Prop :=
  exists tr,
    run (Idle, new_queue) tr (worker p, tts_queue p) /\
    spoken tr = said p /\
    Forall expected_item (enqueued tr).

(** * Proofs *)

(** ** Finite ranges *)

Lemma forall_range (P : Z -> bool) (lo n : Z) :
  forallb P (seqZ lo n) = true ->
  forall z, lo <= z < lo + n -> P z = true.
Proof.
  intros Hall z Hz.
  rewrite forallb_forall in Hall.
  apply Hall, list_elem_of_In, elem_of_seqZ. lia.
Qed.

Lemma mod12_cases (h : Z) :
  let r := h mod 12 in
  r = 0 \/ r = 1 \/ r = 2 \/ r = 3 \/ r = 4 \/ r = 5 \/
  r = 6 \/ r = 7 \/ r = 8 \/ r = 9 \/ r = 10 \/ r = 11.
Proof. intros r. pose proof (Z.mod_pos_bound h 12) as Hb. lia. Qed.

Ltac by_mod12 h :=
  let Hc := fresh "Hc" in
  pose proof (mod12_cases h) as Hc; cbv zeta in Hc;
  repeat (destruct Hc as [Hc | Hc]).

(** ** The label of an hour *)

Example hour_to_philosopher_13 : hour_to_philosopher 13 = Ok "Leibniz".
Proof. reflexivity. Qed.

Example hour_to_philosopher_0 : hour_to_philosopher 0 = Ok "Habermas".
Proof. reflexivity. Qed.

Example hour_to_philosopher_neg : hour_to_philosopher (-1) = Ok "Heidegger".
Proof. reflexivity. Qed.

(** The mapping only looks at [hour24 mod 12]. *)
Lemma hour_to_philosopher_mod (h : Z) :
  hour_to_philosopher h = hour_to_philosopher (h mod 12).
Proof.
  unfold hour_to_philosopher. rewrite Z.mod_mod by lia. reflexivity.
Qed.

Lemma hour_to_philosopher_index (h : Z) :
  hour_to_philosopher h = py_index PHILOSOPHERS (label_index h).
Proof.
  unfold hour_to_philosopher, label_index.
  by_mod12 h; rewrite Hc; reflexivity.
Qed.

Lemma label_index_range (h : Z) : 0 <= label_index h < 12.
Proof.
  unfold label_index. pose proof (Z.mod_pos_bound h 12).
  destruct (h mod 12 =? 0) eqn:E; lia.
Qed.

(** No index error: the mapping answers for every integer. *)
Lemma hour_to_philosopher_total (h : Z) :
  exists phil, hour_to_philosopher h = Ok phil /\
               PHILOSOPHERS !! Z.to_nat (label_index h) = Some phil.
Proof.
  rewrite hour_to_philosopher_index. unfold label_index.
  by_mod12 h; rewrite Hc; eexists; split; reflexivity.
Qed.

Lemma PHILOSOPHERS_NoDup : NoDup PHILOSOPHERS.
Proof. apply (bool_decide_unpack _). vm_compute. exact I. Qed.

Lemma PHILOSOPHERS_length : length PHILOSOPHERS = 12%nat.
Proof. reflexivity. Qed.

(** C1, as the specification words it, fails: at hour 1 the code answers
    the first label, "Leibniz", while the element at index [1 mod 12]
    of the sequence is "Kant". *)
Lemma spec_label_index_off_by_one :
  hour_to_philosopher 1 = Ok "Leibniz" /\
  py_index PHILOSOPHERS (spec_label_index 1) = Ok "Kant" /\
  hour_to_philosopher 1 <> py_index PHILOSOPHERS (spec_label_index 1).
Proof. repeat split; try reflexivity. vm_compute. discriminate. Qed.

(** C1 (amended): for every hour 0-23 the label returned by
    [hour_to_philosopher] is the element of the 12-label sequence at
    index [(hour mod 12) - 1], except that hours 0 and 12 both map to
    index 11, the 12th label, "Habermas"; the mapping answers (raises
    nothing) on every such hour, and the answer is a function of the
    hour. *)
Theorem hour_to_philosopher_label_index (h : Z) (Hh : 0 <= h <= 23) :
  exists phil,
    hour_to_philosopher h = Ok phil /\
    PHILOSOPHERS !! Z.to_nat (label_index h) = Some phil /\
    (h <> 0 -> h <> 12 -> label_index h = h mod 12 - 1) /\
    (h = 0 \/ h = 12 -> label_index h = 11 /\ phil = "Habermas") /\
    (forall h', h' = h -> hour_to_philosopher h' = Ok phil).
Proof.
  destruct (hour_to_philosopher_total h) as (phil & Hp & Hl).
  exists phil. split; [exact Hp|]. split; [exact Hl|].
  split; [|split].
  - intros H0 H12. unfold label_index.
    destruct (h mod 12 =? 0) eqn:E; [|reflexivity].
    apply Z.eqb_eq in E.
    assert (h = 12 * (h / 12)) by (pose proof (Z.div_mod h 12); lia).
    lia.
  - intros [-> | ->]; split; try reflexivity;
      vm_compute in Hp; congruence.
  - intros h' ->. exact Hp.
Qed.

Lemma hour_to_philosopher_label_index_witness :
  exists phil,
    hour_to_philosopher 12 = Ok phil /\
    PHILOSOPHERS !! Z.to_nat (label_index 12) = Some phil /\
    (12 <> 0 -> 12 <> 12 -> label_index 12 = 12 mod 12 - 1) /\
    (12 = 0 \/ 12 = 12 -> label_index 12 = 11 /\ phil = "Habermas") /\
    (forall h', h' = 12 -> hour_to_philosopher h' = Ok phil).
Proof. apply (hour_to_philosopher_label_index 12). lia. Defined.

(** C4: [hour_to_philosopher h = hour_to_philosopher (h + 12)] for every
    hour 0-11; for every hour 0-23 the result is one of the 12 fixed
    labels, found at exactly one place of the sequence; hours 0 and 12
    give the same label, the 12th of the sequence. *)
Theorem hour_to_philosopher_periodic (h : Z) (Hh : 0 <= h <= 23) :
  (h <= 11 -> hour_to_philosopher h = hour_to_philosopher (h + 12)) /\
  (exists phil,
      hour_to_philosopher h = Ok phil /\
      phil ∈ PHILOSOPHERS /\
      exists i, PHILOSOPHERS !! i = Some phil /\
                forall j, PHILOSOPHERS !! j = Some phil -> j = i) /\
  hour_to_philosopher 0 = hour_to_philosopher 12 /\
  hour_to_philosopher 12 = py_index PHILOSOPHERS 11 /\
  PHILOSOPHERS !! 11%nat = Some "Habermas" /\
  length PHILOSOPHERS = 12%nat.
Proof.
  split; [|split; [|repeat split]].
  - intros _.
    assert (E : (h + 12) mod 12 = h mod 12).
    { replace (h + 12) with (h + 1 * 12) by lia. apply Z.mod_add. lia. }
    rewrite (hour_to_philosopher_mod (h + 12)), E.
    apply hour_to_philosopher_mod.
  - destruct (hour_to_philosopher_total h) as (phil & Hp & Hl).
    exists phil. split; [exact Hp|]. split.
    + apply list_elem_of_lookup. eauto.
    + exists (Z.to_nat (label_index h)). split; [exact Hl|].
      intros j Hj.
      exact (NoDup_lookup _ _ _ _ PHILOSOPHERS_NoDup Hj Hl).
Qed.

Lemma hour_to_philosopher_periodic_witness :
  (3 <= 11 -> hour_to_philosopher 3 = hour_to_philosopher (3 + 12)) /\
  (exists phil,
      hour_to_philosopher 3 = Ok phil /\
      phil ∈ PHILOSOPHERS /\
      exists i, PHILOSOPHERS !! i = Some phil /\
                forall j, PHILOSOPHERS !! j = Some phil -> j = i) /\
  hour_to_philosopher 0 = hour_to_philosopher 12 /\
  hour_to_philosopher 12 = py_index PHILOSOPHERS 11 /\
  PHILOSOPHERS !! 11%nat = Some "Habermas" /\
  length PHILOSOPHERS = 12%nat.
Proof. apply (hour_to_philosopher_periodic 3). lia. Defined.

(** ** Formatting *)

Example format_time_phrase_9_5_7 :
  format_time_phrase 9 5 7 =
  Ok "Herder says: Time tells culture: it's 9 hours and 05 minutes, 07 seconds.".
Proof. vm_compute. reflexivity. Qed.

Example format_time_phrase_0_0_0 :
  format_time_phrase 0 0 0 =
  Ok "Habermas says: Communicative act: the time is 0:00:00.".
Proof. vm_compute. reflexivity. Qed.

Example format_time_phrase_23_59_59 :
  format_time_phrase 23 59 59 =
  Ok "Heidegger says: Time is (being): 23 hours, 59 minutes, 59 seconds.".
Proof. vm_compute. reflexivity. Qed.

Example str_format_escapes :
  str_format "{{{h}}}" {[ "h" := "x" ]} = Ok "{x}".
Proof. vm_compute. reflexivity. Qed.

Example str_format_missing :
  str_format "{x}" {[ "h" := "y" ]} = Raise (KeyError "x").
Proof. vm_compute. reflexivity. Qed.

Example str_format_single_brace :
  str_format "a}" {[ "h" := "y" ]} = Raise ValueError.
Proof. vm_compute. reflexivity. Qed.

Example zfill_sign : zfill (str (-5)) 3 = "-05".
Proof. reflexivity. Qed.

Lemma str_unpadded (n : Z) : 0 <= n < 100 -> str n = unpadded n.
Proof.
  intros Hn. apply String.eqb_eq.
  apply (forall_range (fun k => String.eqb (str k) (unpadded k)) 0 100);
    [vm_compute; reflexivity | lia].
Qed.

Lemma zfill_two_digits (n : Z) :
  0 <= n < 100 -> zfill (str n) 2 = two_digits n.
Proof.
  intros Hn. apply String.eqb_eq.
  apply (forall_range
           (fun k => String.eqb (zfill (str k) 2) (two_digits k)) 0 100);
    [vm_compute; reflexivity | lia].
Qed.

Lemma two_digits_length (n : Z) : String.length (two_digits n) = 2%nat.
Proof. reflexivity. Qed.

(** The fallback template formats with any three values. *)
Lemma str_format_default (H M S : string) :
  str_format DEFAULT_TEMPLATE {[ "h" := H; "m" := M; "s" := S ]} =
  Ok ("It's " +:+ H +:+ ":" +:+ M +:+ ":" +:+ S +:+ ".").
Proof. vm_compute. reflexivity. Qed.

(** Every hour has a label, the label has a template of its own, and
    that template formats with any three values. *)
Lemma own_template (h : Z) (H M S : string) :
  exists phil template body,
    hour_to_philosopher h = Ok phil /\
    PHRASES !! phil = Some template /\
    template <> DEFAULT_TEMPLATE /\
    str_format template {[ "h" := H; "m" := M; "s" := S ]} = Ok body.
Proof.
  rewrite hour_to_philosopher_mod.
  by_mod12 h; rewrite Hc; do 3 eexists;
    (split; [reflexivity|]);
    (split; [vm_compute; reflexivity|]);
    (split; [discriminate|]);
    vm_compute; reflexivity.
Qed.

Lemma dict_get_Some (d : gmap string string) (k v default : string) :
  d !! k = Some v -> dict_get d k default = v.
Proof. unfold dict_get. intros ->. reflexivity. Qed.

Lemma dict_get_None (d : gmap string string) (k default : string) :
  d !! k = None -> dict_get d k default = default.
Proof. unfold dict_get. intros ->. reflexivity. Qed.

(** [format_time_phrase] raises nothing, whatever the integers. *)
Lemma format_time_phrase_ok (h m s : Z) :
  exists phil template body,
    hour_to_philosopher h = Ok phil /\
    PHRASES !! phil = Some template /\
    template <> DEFAULT_TEMPLATE /\
    str_format template (time_kwargs h m s) = Ok body /\
    format_time_phrase h m s = Ok (phil +:+ " says: " +:+ body).
Proof.
  destruct (own_template h (str h) (zfill (str m) 2) (zfill (str s) 2))
    as (phil & template & body & Hp & Ht & Hd & Hf).
  exists phil, template, body. repeat split; try assumption.
  unfold format_time_phrase, format_time_phrase_in.
  rewrite Hp. cbn [bind]. rewrite (dict_get_Some _ _ _ _ Ht).
  unfold time_kwargs. rewrite Hf. reflexivity.
Qed.

(** Each of the twelve templates is four pieces of text around the
    fields [{h}], [{m}], [{s}], in this order. *)
Lemma own_template_fields (h : Z) :
  exists phil template a b c d,
    hour_to_philosopher h = Ok phil /\
    PHRASES !! phil = Some template /\
    literals template = [a; b; c; d] /\
    forall H M S,
      str_format template {[ "h" := H; "m" := M; "s" := S ]} =
      Ok (a +:+ H +:+ b +:+ M +:+ c +:+ S +:+ d).
Proof.
  rewrite hour_to_philosopher_mod.
  by_mod12 h; rewrite Hc; do 6 eexists;
    (split; [reflexivity|]);
    (split; [vm_compute; reflexivity|]);
    (split; [vm_compute; reflexivity|]);
    intros H M S; vm_compute; reflexivity.
Qed.

Example literals_Habermas :
  literals "Communicative act: the time is {h}:{m}:{s}." =
  ["Communicative act: the time is "; ":"; ":"; "."].
Proof. vm_compute. reflexivity. Qed.

(** C3: [format_time_phrase] is a function of [(h, m, s)]; for every
    hour 0-23, minute 0-59 and second 0-59 it returns a string that
    starts with the label followed by " says: " and continues with the
    label's template in which the hour is substituted as its unpadded
    decimal numeral and the minute and the second as exactly two
    zero-padded digits (5 gives "05", 9 gives "9", 0 gives "0"): the
    phrase is the four literal pieces of the template with these three
    numerals in between. *)
Theorem format_time_phrase_shape (h m s : Z)
    (Hh : 0 <= h <= 23) (Hm : 0 <= m <= 59) (Hs : 0 <= s <= 59) :
  exists phil template body,
    hour_to_philosopher h = Ok phil /\
    template = dict_get PHRASES phil DEFAULT_TEMPLATE /\
    str_format template
      {[ "h" := unpadded h; "m" := two_digits m; "s" := two_digits s ]}
      = Ok body /\
    format_time_phrase h m s = Ok (phil +:+ " says: " +:+ body) /\
    (exists a b c d,
        literals template = [a; b; c; d] /\
        body = a +:+ unpadded h +:+ b +:+ two_digits m +:+ c +:+
               two_digits s +:+ d) /\
    str h = unpadded h /\
    zfill (str m) 2 = two_digits m /\
    zfill (str s) 2 = two_digits s /\
    String.length (zfill (str m) 2) = 2%nat /\
    String.length (zfill (str s) 2) = 2%nat /\
    (forall h' m' s', h' = h -> m' = m -> s' = s ->
       format_time_phrase h' m' s' = format_time_phrase h m s) /\
    zfill (str 5) 2 = "05" /\ str 9 = "9" /\ str 0 = "0".
Proof.
  destruct (format_time_phrase_ok h m s)
    as (phil & template & body & Hp & Ht & _ & Hf & Hr).
  assert (Eh : str h = unpadded h) by (apply str_unpadded; lia).
  assert (Em : zfill (str m) 2 = two_digits m)
    by (apply zfill_two_digits; lia).
  assert (Es : zfill (str s) 2 = two_digits s)
    by (apply zfill_two_digits; lia).
  exists phil, template, body.
  split; [exact Hp|].
  split; [symmetry; apply dict_get_Some; exact Ht|].
  split; [unfold time_kwargs in Hf; rewrite Eh, Em, Es in Hf; exact Hf|].
  split; [exact Hr|].
  split.
  { destruct (own_template_fields h)
      as (phil' & template' & a & b & c & d & Hp' & Ht' & Hl & Hfmt).
    rewrite Hp in Hp'. injection Hp' as <-.
    rewrite Ht in Ht'. injection Ht' as <-.
    exists a, b, c, d. split; [exact Hl|].
    unfold time_kwargs in Hf. rewrite Hfmt, Eh, Em, Es in Hf.
    injection Hf as <-. reflexivity. }
  split; [exact Eh|]. split; [exact Em|]. split; [exact Es|].
  split; [rewrite Em; apply two_digits_length|].
  split; [rewrite Es; apply two_digits_length|].
  split; [intros h' m' s' -> -> ->; reflexivity|].
  repeat split.
Qed.

Lemma format_time_phrase_shape_witness :
  format_time_phrase 9 5 7 =
  Ok "Herder says: Time tells culture: it's 9 hours and 05 minutes, 07 seconds.".
Proof.
  destruct (format_time_phrase_shape 9 5 7) as (phil & t & body & Hp & Ht & Hb & Hr & _);
    [lia | lia | lia |].
  rewrite Hr. vm_compute in Hp. injection Hp as <-.
  subst t. vm_compute in Hb. injection Hb as <-. reflexivity.
Defined.

(** C8: when the dictionary read by [format_time_phrase] has no entry
    for the label of the hour, the lookup answers the generic template
    "It's {h}:{m}:{s}." and the function still returns a phrase, for
    all integers [h], [m], [s]: nothing is raised. *)
Theorem format_time_phrase_fallback (phrases : gmap string string)
    (h m s : Z) (phil : string)
    (Hp : hour_to_philosopher h = Ok phil)
    (Hmiss : phrases !! phil = None) :
  dict_get phrases phil DEFAULT_TEMPLATE = DEFAULT_TEMPLATE /\
  format_time_phrase_in phrases h m s =
    Ok (phil +:+ " says: " +:+
        "It's " +:+ str h +:+ ":" +:+ zfill (str m) 2 +:+ ":" +:+
        zfill (str s) 2 +:+ ".").
Proof.
  split; [apply dict_get_None; exact Hmiss|].
  unfold format_time_phrase_in. rewrite Hp. cbn [bind].
  rewrite (dict_get_None _ _ _ Hmiss).
  unfold time_kwargs. rewrite str_format_default. reflexivity.
Qed.

Lemma format_time_phrase_fallback_witness :
  dict_get ∅ "Herder" DEFAULT_TEMPLATE = DEFAULT_TEMPLATE /\
  format_time_phrase_in ∅ 9 5 7 = Ok "Herder says: It's 9:05:07.".
Proof.
  exact (format_time_phrase_fallback ∅ 9 5 7 "Herder" eq_refl eq_refl).
Defined.

(** C10: every label of [PHILOSOPHERS] is a key of [PHRASES]; so for
    every hour 0-23 [format_time_phrase] formats the template stored
    under the hour's own label, and the fallback "It's {h}:{m}:{s}." is
    not the template used. *)
Theorem phrases_cover_philosophers (h m s : Z) (Hh : 0 <= h <= 23) :
  Forall (fun phil => is_Some (PHRASES !! phil)) PHILOSOPHERS /\
  exists phil template,
    hour_to_philosopher h = Ok phil /\
    PHRASES !! phil = Some template /\
    dict_get PHRASES phil DEFAULT_TEMPLATE = template /\
    template <> DEFAULT_TEMPLATE /\
    format_time_phrase h m s =
      (body <- str_format template (time_kwargs h m s) ;;
       Ok (phil +:+ " says: " +:+ body)).
Proof.
  split.
  - apply (bool_decide_unpack _). vm_compute. exact I.
  - destruct (format_time_phrase_ok h m s)
      as (phil & template & body & Hp & Ht & Hd & Hf & Hr).
    exists phil, template. repeat split; try assumption.
    + apply dict_get_Some. exact Ht.
    + rewrite Hr, Hf. reflexivity.
Qed.

Lemma phrases_cover_philosophers_witness :
  Forall (fun phil => is_Some (PHRASES !! phil)) PHILOSOPHERS /\
  exists phil template,
    hour_to_philosopher 7 = Ok phil /\
    PHRASES !! phil = Some template /\
    dict_get PHRASES phil DEFAULT_TEMPLATE = template /\
    template <> DEFAULT_TEMPLATE /\
    format_time_phrase 7 30 0 =
      (body <- str_format template (time_kwargs 7 30 0) ;;
       Ok (phil +:+ " says: " +:+ body)).
Proof. apply (phrases_cover_philosophers 7 30 0). lia. Defined.

(** ** Hand angles *)

Example hour_angle_9_30 :
  hour_angle (draw_hands (mk_datetime 9 30 0)) = 285%float.
Proof. vm_compute. reflexivity. Qed.

(** Rounding shows: at 0:31 the binary64 hour angle is not 15.5. *)
Example hour_angle_0_31_rounded :
  exactly (hour_angle (draw_hands (mk_datetime 0 31 0)))
          (spec_hour_angle 0 31) = false /\
  within 45 (hour_angle (draw_hands (mk_datetime 0 31 0)))
         (spec_hour_angle 0 31) = true.
Proof. split; vm_compute; reflexivity. Qed.

Lemma hour_angle_close (h m : Z) :
  0 <= h <= 23 -> 0 <= m <= 59 ->
  within 44 (hour_angle (draw_hands (mk_datetime h m 0)))
         (spec_hour_angle h m) = true.
Proof.
  intros Hh Hm.
  pose (P := fun h m => within 44 (hour_angle (draw_hands (mk_datetime h m 0)))
                               (spec_hour_angle h m)).
  change (P h m = true).
  apply (forall_range (P h) 0 60); [|lia].
  apply (forall_range (fun h => forallb (P h) (seqZ 0 60)) 0 24); [|lia].
  vm_compute. reflexivity.
Qed.

Lemma minute_angle_close (m s : Z) :
  0 <= m <= 59 -> 0 <= s <= 59 ->
  within 44 (minute_angle (draw_hands (mk_datetime 0 m s)))
         (spec_minute_angle m s) = true.
Proof.
  intros Hm Hs.
  pose (P := fun m s => within 44 (minute_angle (draw_hands (mk_datetime 0 m s)))
                               (spec_minute_angle m s)).
  change (P m s = true).
  apply (forall_range (P m) 0 60); [|lia].
  apply (forall_range (fun m => forallb (P m) (seqZ 0 60)) 0 60); [|lia].
  vm_compute. reflexivity.
Qed.

(** C6: for every reading with hour 0-23, minute 0-59 and second 0-59,
    [draw_hands] computes, in the binary64 arithmetic of the source, the
    hour angle [(hour mod 12 + minute/60) * 30], the minute angle
    [(minute + second/60) * 6] and, as an integer, the second angle
    [second * 6]; the two binary64 values lie within [2^-44] degrees of
    the exact rational value of these formulas, the second angle is that
    value exactly; and hourAngle(0,0,0) = 0, hourAngle(6,0,0) = 180,
    minuteAngle(30,0) = 180, secondAngle(45) = 270 hold exactly. *)
Theorem draw_hands_angles (h m s : Z)
    (Hh : 0 <= h <= 23) (Hm : 0 <= m <= 59) (Hs : 0 <= s <= 59) :
  hour_angle (draw_hands (mk_datetime h m s)) =
    ((float_of_int (h mod 12) + float_of_int m / 60) * 30)%float /\
  minute_angle (draw_hands (mk_datetime h m s)) =
    ((float_of_int m + float_of_int s / 60) * 6)%float /\
  second_angle (draw_hands (mk_datetime h m s)) = s * 6 /\
  within 44 (hour_angle (draw_hands (mk_datetime h m s)))
         (spec_hour_angle h m) = true /\
  within 44 (minute_angle (draw_hands (mk_datetime h m s)))
         (spec_minute_angle m s) = true /\
  (inject_Z (second_angle (draw_hands (mk_datetime h m s)))
   == spec_second_angle s)%Q /\
  hour_angle (draw_hands (mk_datetime 0 0 0)) = 0%float /\
  hour_angle (draw_hands (mk_datetime 6 0 0)) = 180%float /\
  minute_angle (draw_hands (mk_datetime 0 30 0)) = 180%float /\
  second_angle (draw_hands (mk_datetime 0 0 45)) = 270.
Proof.
  split; [reflexivity|]. split; [reflexivity|]. split; [reflexivity|].
  split; [exact (hour_angle_close h m Hh Hm)|].
  split; [exact (minute_angle_close m s Hm Hs)|].
  split.
  - unfold spec_second_angle. cbn [draw_hands second_angle second].
    rewrite inject_Z_mult. reflexivity.
  - repeat split; vm_compute; reflexivity.
Qed.

Lemma draw_hands_angles_witness :
  hour_angle (draw_hands (mk_datetime 15 45 20)) = 112.5%float /\
  second_angle (draw_hands (mk_datetime 15 45 20)) = 120.
Proof.
  destruct (draw_hands_angles 15 45 20) as (Ha & _ & Hc & _);
    [lia | lia | lia |].
  split; [rewrite Ha; vm_compute; reflexivity | exact Hc].
Defined.

(** ** The queue *)

Lemma put_nowait_unbounded (q : Queue) (x : item) :
  maxsize q <= 0 ->
  put_nowait q x =
    Ok (mk_Queue (maxsize q) (items q ++ [x]) (unfinished_tasks q + 1)).
Proof.
  intros Hm. unfold put_nowait.
  replace (0 <? maxsize q) with false by (symmetry; apply Z.ltb_ge; lia).
  reflexivity.
Qed.

Lemma put_nowait_cases (q : Queue) (x : item) :
  put_nowait q x = Raise Full \/
  put_nowait q x =
    Ok (mk_Queue (maxsize q) (items q ++ [x]) (unfinished_tasks q + 1)).
Proof.
  unfold put_nowait.
  destruct ((0 <? maxsize q) && (maxsize q <=? qsize q)); auto.
Qed.

Lemma put_all_unbounded (xs : list item) (q : Queue) :
  maxsize q <= 0 ->
  put_all q xs =
    Ok (mk_Queue (maxsize q) (items q ++ xs)
                 (unfinished_tasks q + Z.of_nat (length xs))).
Proof.
  revert q. induction xs as [|x xs IH]; intros q Hm; cbn [put_all].
  - rewrite app_nil_r, Z.add_0_r. destruct q; reflexivity.
  - rewrite put_nowait_unbounded by exact Hm. cbn [bind].
    rewrite IH by exact Hm. cbn [maxsize items unfinished_tasks length].
    rewrite <- app_assoc. do 2 f_equal. lia.
Qed.

(** The loop equation of [mute_now]'s [while]. *)
Lemma drain_unfold (q : Queue) :
  drain q =
  if empty q then Ok q
  else match get_nowait q with
       | Ok (_, q1) => q2 <- task_done q1 ;; drain q2
       | Raise Empty => Ok q
       | Raise e => Raise e
       end.
Proof.
  unfold drain. destruct q as [mx its unf]. destruct its as [|x rest].
  - reflexivity.
  - cbn [items length drain_loop]. unfold empty, qsize. cbn [items length].
    replace (Z.of_nat (S (length rest)) =? 0) with false
      by (symmetry; apply Z.eqb_neq; lia).
    unfold get_nowait. cbn [items maxsize unfinished_tasks].
    unfold task_done. cbn [items maxsize unfinished_tasks].
    destruct (unf - 1 <? 0); reflexivity.
Qed.

(** The loop ends with an empty queue when every queued item is still
    counted as unfinished, which [put_nowait] ensures. *)
Lemma drain_loop_empties (fuel : nat) (q : Queue) :
  (length (items q) <= fuel)%nat ->
  Z.of_nat (length (items q)) <= unfinished_tasks q ->
  drain_loop fuel q =
    Ok (mk_Queue (maxsize q) []
                 (unfinished_tasks q - Z.of_nat (length (items q)))).
Proof.
  revert q. induction fuel as [|fuel IH]; intros [mx its unf];
    cbn [items maxsize unfinished_tasks]; intros Hf Hu.
  - destruct its; [|cbn in Hf; lia].
    cbn. rewrite Z.sub_0_r. reflexivity.
  - destruct its as [|x rest].
    + cbn. rewrite Z.sub_0_r. reflexivity.
    + cbn [drain_loop]. unfold empty, qsize. cbn [items length] in *.
      replace (Z.of_nat (S (length rest)) =? 0) with false
        by (symmetry; apply Z.eqb_neq; lia).
      unfold get_nowait, task_done. cbn [items maxsize unfinished_tasks].
      replace (unf - 1 <? 0) with false by (symmetry; apply Z.ltb_ge; lia).
      cbn [bind]. rewrite IH; cbn [items maxsize unfinished_tasks].
      * do 2 f_equal. lia.
      * lia.
      * lia.
Qed.

Lemma drain_empties (q : Queue) :
  Z.of_nat (length (items q)) <= unfinished_tasks q ->
  drain q =
    Ok (mk_Queue (maxsize q) []
                 (unfinished_tasks q - Z.of_nat (length (items q)))).
Proof. intros Hu. apply drain_loop_empties; [lia | exact Hu]. Qed.

(** ** Ticks and muting *)

Lemma update_clock_disabled (now : datetime) (self : PhilosopherClock)
    (q : Queue) :
  speak_var self = false -> update_clock now self q = Ok (self, q).
Proof. unfold update_clock. intros ->. reflexivity. Qed.

Lemma ticks_disabled (nows : list datetime) (self : PhilosopherClock)
    (q : Queue) :
  speak_var self = false -> ticks nows self q = Ok (self, q).
Proof.
  intros Hd. induction nows as [|now rest IH]; cbn [ticks].
  - reflexivity.
  - rewrite update_clock_disabled by exact Hd. cbn [bind fst snd]. exact IH.
Qed.

Lemma mute_now_result (self : PhilosopherClock) (q : Queue) :
  Z.of_nat (length (items q)) <= unfinished_tasks q ->
  exists q',
    mute_now self q = Ok (mk_PhilosopherClock false (last_spoken_second self), q') /\
    items q' = (if speak_var self then [Some MUTED_NOTICE] else []) /\
    maxsize q' = maxsize q.
Proof.
  intros Hu. unfold mute_now. rewrite (drain_empties q Hu). cbn [bind].
  destruct (speak_var self).
  - unfold put_nowait, qsize. cbn [items maxsize unfinished_tasks length].
    destruct (0 <? maxsize q) eqn:E.
    + replace (maxsize q <=? Z.of_nat 0) with false
        by (symmetry; apply Z.leb_gt; apply Z.ltb_lt in E; lia).
      cbn. eexists; repeat split.
    + cbn. eexists; repeat split.
  - cbn. eexists; repeat split.
Qed.

(** C5, as the specification words it, fails: with speech enabled (the
    state a fresh window is in), three items queued and then
    [mute_now], the queue is not empty; it holds the notice that
    [mute_now] itself enqueues after draining. *)
Lemma mute_now_leaves_notice :
  (q0 <- put_all new_queue [Some "P1"; Some "P2"; Some "P3"] ;;
   st <- mute_now init_clock q0 ;;
   Ok (speak_var (fst st), items (snd st)))
  = Ok (false, [Some MUTED_NOTICE]) /\
  [Some MUTED_NOTICE] <> @nil item.
Proof. split; [vm_compute; reflexivity | discriminate]. Qed.

(** C5 (amended): after enqueuing items and then calling [mute_now],
    none of these items is left in the queue: it is empty when speech
    was disabled at the call, and holds exactly the one "Muted..."
    notice when speech was enabled; the speech-enabled flag is false;
    and over any sequence of subsequent ticks, the flag being false,
    [update_clock] enqueues nothing: window and queue stay as they
    are. *)
Theorem mute_now_clears (self : PhilosopherClock) (xs : list item) :
  exists q0 self' q1,
    put_all new_queue xs = Ok q0 /\
    items q0 = xs /\
    mute_now self q0 = Ok (self', q1) /\
    speak_var self' = false /\
    items q1 = (if speak_var self then [Some MUTED_NOTICE] else []) /\
    (forall x, x ∈ xs -> x <> Some MUTED_NOTICE -> x ∉ items q1) /\
    (forall nows, ticks nows self' q1 = Ok (self', q1)).
Proof.
  pose proof (put_all_unbounded xs new_queue) as Hput.
  cbn [maxsize items unfinished_tasks new_queue app] in Hput.
  specialize (Hput ltac:(lia)).
  set (q0 := mk_Queue 0 xs (0 + Z.of_nat (length xs))) in *.
  destruct (mute_now_result self q0) as (q1 & Hm & Hi & _).
  { subst q0. cbn [items unfinished_tasks]. lia. }
  exists q0, (mk_PhilosopherClock false (last_spoken_second self)), q1.
  split; [exact Hput|]. split; [reflexivity|]. split; [exact Hm|].
  split; [reflexivity|]. split; [exact Hi|]. split.
  - intros x _ Hx. rewrite Hi. destruct (speak_var self).
    + intros Hin. apply list_elem_of_singleton in Hin. contradiction.
    + apply not_elem_of_nil.
  - intros nows. apply ticks_disabled. reflexivity.
Qed.

(** Three phrases queued in a fresh window, then muted. *)
Lemma mute_now_clears_witness :
  exists q0 self' q1,
    put_all new_queue [Some "P1"; Some "P2"; Some "P3"] = Ok q0 /\
    items q0 = [Some "P1"; Some "P2"; Some "P3"] /\
    mute_now init_clock q0 = Ok (self', q1) /\
    speak_var self' = false /\
    items q1 = (if speak_var init_clock then [Some MUTED_NOTICE] else []) /\
    (forall x, x ∈ [Some "P1"; Some "P2"; Some "P3"] ->
               x <> Some MUTED_NOTICE -> x ∉ items q1) /\
    (forall nows, ticks nows self' q1 = Ok (self', q1)).
Proof.
  exact (mute_now_clears init_clock [Some "P1"; Some "P2"; Some "P3"]).
Defined.

(** ** Enqueuing on a tick *)

Example update_clock_same_second :
  update_clock (mk_datetime 9 5 7) (mk_PhilosopherClock true 7) new_queue
  = Ok (mk_PhilosopherClock true 7, new_queue).
Proof. reflexivity. Qed.

Example update_clock_new_second :
  update_clock (mk_datetime 0 0 0) init_clock new_queue
  = Ok (mk_PhilosopherClock true 0,
        mk_Queue 0 [Some "Habermas says: Communicative act: the time is 0:00:00."] 1).
Proof. vm_compute. reflexivity. Qed.

(** C7: on a tick where speech is enabled and the current second
    differs from [last_spoken_second], [update_clock] formats the
    phrase, tries [put_nowait] with it and sets [last_spoken_second] to
    the current second.  When the put succeeds the phrase is at the tail
    of the queue; when it raises [Full] the queue is left as it was and
    the tick still returns normally; in both cases a repeated tick in
    the same second changes nothing, so a dropped phrase is not tried
    again. *)
Theorem update_clock_enqueue (now : datetime) (self : PhilosopherClock)
    (q : Queue)
    (Hen : speak_var self = true)
    (Hsec : second now <> last_spoken_second self) :
  exists phrase self',
    format_time_phrase (hour now) (minute now) (second now) = Ok phrase /\
    self' = mk_PhilosopherClock true (second now) /\
    (put_nowait q (Some phrase) = Raise Full ->
       update_clock now self q = Ok (self', q)) /\
    (forall q', put_nowait q (Some phrase) = Ok q' ->
       update_clock now self q = Ok (self', q') /\
       items q' = items q ++ [Some phrase]) /\
    (exists q', update_clock now self q = Ok (self', q') /\
                update_clock now self' q' = Ok (self', q')).
Proof.
  destruct (format_time_phrase_ok (hour now) (minute now) (second now))
    as (phil & template & body & _ & _ & _ & _ & Hr).
  eexists _, _. split; [exact Hr|]. split; [reflexivity|].
  assert (Hu : forall q', (match put_nowait q (Some (phil +:+ " says: " +:+ body)) with
                           | Raise Full => Ok q
                           | r => r
                           end) = Ok q' ->
               update_clock now self q =
                 Ok (mk_PhilosopherClock true (second now), q')).
  { intros q' Hq. unfold update_clock. cbv zeta. rewrite Hen.
    replace (second now =? last_spoken_second self) with false
      by (symmetry; apply Z.eqb_neq; exact Hsec).
    cbn [negb]. rewrite Hr. cbn [bind]. rewrite Hq. reflexivity. }
  assert (Hsame : forall q', update_clock now
                    (mk_PhilosopherClock true (second now)) q' =
                    Ok (mk_PhilosopherClock true (second now), q')).
  { intros q'. unfold update_clock. cbv zeta.
    cbn [speak_var last_spoken_second]. rewrite Z.eqb_refl. reflexivity. }
  split; [|split].
  - intros Hfull. apply Hu. rewrite Hfull. reflexivity.
  - intros q' Hq. split; [apply Hu; rewrite Hq; reflexivity|].
    destruct (put_nowait_cases q (Some (phil +:+ " says: " +:+ body)))
      as [Hc | Hc]; rewrite Hc in Hq; [discriminate|].
    injection Hq as <-. reflexivity.
  - destruct (put_nowait_cases q (Some (phil +:+ " says: " +:+ body)))
      as [Hc | Hc].
    + exists q. split; [apply Hu; rewrite Hc; reflexivity | apply Hsame].
    + eexists. split; [apply Hu; rewrite Hc; reflexivity | apply Hsame].
Qed.

(** A queue built with a bound of one item, and full. *)
Lemma update_clock_enqueue_witness :
  put_nowait (mk_Queue 1 [Some "waiting"] 1)
             (Some "Herder says: Time tells culture: it's 9 hours and 05 minutes, 07 seconds.")
    = Raise Full /\
  update_clock (mk_datetime 9 5 7) init_clock (mk_Queue 1 [Some "waiting"] 1)
    = Ok (mk_PhilosopherClock true 7, mk_Queue 1 [Some "waiting"] 1).
Proof.
  split; [reflexivity|].
  destruct (update_clock_enqueue (mk_datetime 9 5 7) init_clock
              (mk_Queue 1 [Some "waiting"] 1))
    as (phrase & self' & Hp & -> & Hfull & _).
  - reflexivity.
  - cbn. lia.
  - vm_compute in Hp. injection Hp as <-. apply Hfull. reflexivity.
Defined.

(** ** The worker *)

(** The scenario of the specification: three phrases, then the sentinel,
    and the worker alone. *)
Example worker_alone_three :
  (q <- put_all new_queue [Some "P1"; Some "P2"; Some "P3"; None; Some "late"] ;;
   Ok (worker_alone 20 Idle q))
  = Ok (["P1"; "P2"; "P3"], Stopped, mk_Queue 0 [Some "late"] 2).
Proof. vm_compute. reflexivity. Qed.

Lemma get_nowait_Ok (q q1 : Queue) (x : item) :
  get_nowait q = Ok (x, q1) ->
  items q = x :: items q1 /\
  maxsize q1 = maxsize q /\
  unfinished_tasks q1 = unfinished_tasks q.
Proof.
  unfold get_nowait. destruct (items q) as [|y rest]; [discriminate|].
  intros [= <- <-]. repeat split.
Qed.

Lemma task_done_Ok (q q' : Queue) :
  task_done q = Ok q' ->
  items q' = items q /\
  maxsize q' = maxsize q /\
  unfinished_tasks q' = unfinished_tasks q - 1 /\
  1 <= unfinished_tasks q.
Proof.
  unfold task_done. destruct (unfinished_tasks q - 1 <? 0) eqn:E;
    [discriminate|].
  intros [= <-]. apply Z.ltb_ge in E. repeat split. lia.
Qed.

Lemma task_done_Raise (q : Queue) (e : exn) :
  task_done q = Raise e -> unfinished_tasks q < 1.
Proof.
  unfold task_done. destruct (unfinished_tasks q - 1 <? 0) eqn:E;
    [|discriminate].
  intros _. apply Z.ltb_lt in E. lia.
Qed.

Lemma in_flight_snoc (tr : list event) (ev : event) :
  in_flight (tr ++ [ev]) = in_flight tr + delta ev.
Proof.
  induction tr as [|e tr IH]; cbn [app in_flight]; [lia | rewrite IH; lia].
Qed.

Lemma enqueued_snoc (tr : list event) (ev : event) :
  enqueued (tr ++ [ev]) = enqueued tr ++ from_option (fun x => [x]) [] (put_of ev).
Proof. unfold enqueued. rewrite omap_app. cbn. destruct (put_of ev); reflexivity. Qed.

Lemma dequeued_snoc (tr : list event) (ev : event) :
  dequeued (tr ++ [ev]) = dequeued tr ++ from_option (fun x => [x]) [] (taken_of ev).
Proof. unfold dequeued. rewrite omap_app. cbn. destruct (taken_of ev); reflexivity. Qed.

Lemma spoken_snoc (tr : list event) (ev : event) :
  spoken (tr ++ [ev]) = spoken tr ++ from_option (fun x => [x]) [] (said_of ev).
Proof. unfold spoken. rewrite omap_app. cbn. destruct (said_of ev); reflexivity. Qed.

Lemma inv_step (tr : list event) (st st' : worker_state * Queue)
    (ev : event) :
  inv tr st -> step st ev st' -> inv (tr ++ [ev]) st'.
Proof.
  intros (Hq & Hf & Hu & Hc & Hm) Hstep.
  unfold inv. rewrite enqueued_snoc, dequeued_snoc, in_flight_snoc.
  destruct Hstep as [w q x q' Hput | w q x q1 q2 Hget Hdone
                    | w q ok ev w' q' Hw]; cbn [fst snd] in *.
  - rewrite put_nowait_unbounded in Hput by lia. injection Hput as <-.
    cbn [put_of taken_of delta from_option items maxsize unfinished_tasks].
    rewrite Hq, length_app, app_nil_r, app_assoc. cbn [length].
    repeat split; try assumption; lia.
  - apply get_nowait_Ok in Hget as (Hi & Hm1 & Hu1).
    apply task_done_Ok in Hdone as (Hi2 & Hm2 & Hu2 & _).
    cbn [put_of taken_of delta from_option].
    rewrite Hi2, Hm2, Hu2, Hm1, Hu1, app_nil_r, <- app_assoc.
    rewrite Hi in Hq, Hu. cbn [length app] in *.
    repeat split; try assumption; lia.
  - destruct w as [| text | |]; cbn [worker_step] in Hw; try discriminate.
    + destruct (get_nowait q) as [[[text|] q1]|] eqn:Hget; try discriminate;
        injection Hw as <- <- <-;
        apply get_nowait_Ok in Hget as (Hi & Hm1 & Hu1);
        cbn [put_of taken_of delta from_option busy];
        rewrite Hm1, Hu1, app_nil_r, <- app_assoc;
        rewrite Hi in Hq, Hu; cbn [length app busy] in *;
        repeat split; try assumption; try discriminate; lia.
    + destruct (task_done q) as [q1|e] eqn:Hdone.
      * injection Hw as <- <- <-.
        apply task_done_Ok in Hdone as (Hi2 & Hm2 & Hu2 & _).
        cbn [put_of taken_of delta from_option busy] in *.
        rewrite Hi2, Hm2, Hu2, !app_nil_r.
        repeat split; try assumption; try discriminate; lia.
      * apply task_done_Raise in Hdone. cbn [busy] in Hu. lia.
Qed.

Lemma run_inv (tr : list event) (st : worker_state * Queue) :
  run (Idle, new_queue) tr st -> inv tr st.
Proof.
  induction 1 as [|tr st1 ev st2 _ IH Hstep].
  - repeat split; cbn; try lia; discriminate.
  - exact (inv_step tr st1 st2 ev IH Hstep).
Qed.

(** Whatever is said was taken from the queue, in the same order. *)
Lemma spoken_sublist_dequeued (tr : list event) :
  sublist (map Some (spoken tr)) (dequeued tr).
Proof.
  unfold spoken, dequeued.
  induction tr as [|ev tr IH]; [constructor|].
  destruct ev; cbn; try exact IH; constructor; exact IH.
Qed.

(** Without [mute_now] emptying the queue, what was taken is what was
    said, followed by the sentinel once the worker has stopped. *)
Lemma dequeued_no_discard (tr : list event) (st : worker_state * Queue) :
  run (Idle, new_queue) tr st ->
  forallb (fun ev => negb (is_discard ev)) tr = true ->
  dequeued tr = map Some (spoken tr) ++ stop_mark (fst st).
Proof.
  induction 1 as [|tr st1 ev st2 _ IH Hstep]; intros Hnd; [reflexivity|].
  rewrite forallb_app in Hnd. apply andb_true_iff in Hnd as [Hnd Hev].
  specialize (IH Hnd). rewrite dequeued_snoc, spoken_snoc, IH.
  destruct Hstep as [w q x q' Hput | w q x q1 q2 Hget Hdone
                    | w q ok ev w' q' Hw]; cbn [fst snd] in *.
  - cbn. rewrite !app_nil_r. reflexivity.
  - cbn in Hev. discriminate.
  - destruct w as [| text | |]; cbn [worker_step] in Hw; try discriminate.
    + destruct (get_nowait q) as [[[text|] q1]|]; try discriminate;
        injection Hw as <- <- <-; cbn; rewrite ?app_nil_r.
      * rewrite map_app. reflexivity.
      * reflexivity.
    + destruct (task_done q); injection Hw as <- <- <-; cbn;
        rewrite !app_nil_r; reflexivity.
Qed.

(** After [break] the worker does nothing more, whatever is put. *)
Lemma stopped_is_terminal (q : Queue) (tr : list event)
    (st : worker_state * Queue) :
  run (Stopped, q) tr st ->
  fst st = Stopped /\
  spoken tr = [] /\
  forallb (fun ev => negb (is_worker_event ev)) tr = true.
Proof.
  induction 1 as [|tr st1 ev st2 _ (Hw & Hs & Hn) Hstep].
  - repeat split.
  - rewrite spoken_snoc, forallb_app, Hs, Hn.
    destruct Hstep as [w q0 x q' Hput | w q0 x q1 q2 Hget Hdone
                      | w q0 ok ev w' q' Hstepw]; cbn [fst snd] in *.
    + repeat split; assumption.
    + repeat split; assumption.
    + subst w. discriminate.
Qed.

(** The moves of the worker in a reachable state. *)
Lemma worker_moves (tr : list event) (w : worker_state) (q : Queue)
    (ok : bool) :
  run (Idle, new_queue) tr (w, q) ->
  match w with
  | Idle =>
      match items q with
      | [] => worker_step w q ok = None
      | Some text :: rest =>
          exists q', worker_step w q ok = Some (EvSay text, Speaking text, q')
                     /\ items q' = rest
      | None :: rest =>
          exists q', worker_step w q ok = Some (EvBreak, Stopped, q')
                     /\ items q' = rest
      end
  | Speaking _ =>
      exists q', worker_step w q ok = Some (EvReturn ok, Idle, q')
                 /\ items q' = items q
  | Stopped => worker_step w q ok = None
  | Crashed => False
  end.
Proof.
  intros Hrun. apply run_inv in Hrun as (_ & _ & Hu & Hc & _).
  cbn [fst snd] in *. destruct w as [| text | |].
  - unfold worker_step, get_nowait. destruct (items q) as [|[text|] rest].
    + reflexivity.
    + eexists. split; reflexivity.
    + eexists. split; reflexivity.
  - cbn [worker_step busy] in *. unfold task_done.
    replace (unfinished_tasks q - 1 <? 0) with false
      by (symmetry; apply Z.ltb_ge; lia).
    eexists. split; reflexivity.
  - reflexivity.
  - apply Hc. reflexivity.
Qed.

(** C2: in every run of the worker [tts_worker], interleaved with the
    queue operations of the GUI thread, from the idle worker and the
    empty queue:
    - items leave the queue in the order they were put, the texts said
      are among them in that order, and when nothing is discarded by
      [mute_now] the texts said, then the sentinel if the worker has
      stopped, then the queued items are exactly the items put (FIFO);
    - the number of engine calls in flight is 1 while [Speaking] and 0
      otherwise, so never more than one;
    - [Idle] moves to [Speaking] on a text at the head of the queue, to
      [Stopped] on the sentinel, and waits on an empty queue;
      [Speaking] moves back to [Idle] whether the engine returned or
      raised an exception, which is caught;
    - the worker is in none but these three states;
    - [Stopped] is terminal: from then on the worker makes no move and
      no text is said. *)
Theorem tts_worker_fifo (tr : list event) (w : worker_state) (q : Queue)
    (Hrun : run (Idle, new_queue) tr (w, q)) :
  enqueued tr = dequeued tr ++ items q /\
  sublist (map Some (spoken tr)) (enqueued tr) /\
  (forallb (fun ev => negb (is_discard ev)) tr = true ->
     enqueued tr = map Some (spoken tr) ++ stop_mark w ++ items q) /\
  in_flight tr = busy w /\ 0 <= in_flight tr <= 1 /\
  (forall ok,
     match w with
     | Idle =>
         match items q with
         | [] => worker_step w q ok = None
         | Some text :: rest =>
             exists q', worker_step w q ok = Some (EvSay text, Speaking text, q')
                        /\ items q' = rest
         | None :: rest =>
             exists q', worker_step w q ok = Some (EvBreak, Stopped, q')
                        /\ items q' = rest
         end
     | Speaking _ =>
         exists q', worker_step w q ok = Some (EvReturn ok, Idle, q')
                    /\ items q' = items q
     | Stopped => worker_step w q ok = None
     | Crashed => False
     end) /\
  (w = Idle \/ (exists text, w = Speaking text) \/ w = Stopped) /\
  (w = Stopped ->
   forall tr' w' q', run (w, q) tr' (w', q') ->
     w' = Stopped /\ spoken tr' = [] /\
     forallb (fun ev => negb (is_worker_event ev)) tr' = true).
Proof.
  pose proof (run_inv tr (w, q) Hrun) as (Hq & Hf & Hu & Hc & Hm).
  cbn [fst snd] in *.
  split; [exact Hq|]. split.
  - rewrite Hq. apply sublist_inserts_r, spoken_sublist_dequeued.
  - split.
    + intros Hnd. rewrite Hq, (dequeued_no_discard tr (w, q) Hrun Hnd).
      cbn [fst]. rewrite <- app_assoc. reflexivity.
    + split; [exact Hf|]. split; [rewrite Hf; destruct w; cbn; lia|].
      split; [intros ok; exact (worker_moves tr w q ok Hrun)|]. split.
      * destruct w; eauto. contradiction.
      * intros -> tr' w' q' Hrun'.
        exact (stopped_is_terminal q tr' (w', q') Hrun').
Qed.

(** ** Replaying a trace *)

Lemma step_fn_sound (st st' : worker_state * Queue) (ev : event) :
  step_fn st ev = Some st' -> step st ev st'.
Proof.
  destruct st as [w q]. unfold step_fn. destruct ev as [x | x | text | ok |].
  - destruct (put_nowait q x) as [q'|] eqn:Hput; [|discriminate].
    intros [= <-]. apply step_put. exact Hput.
  - destruct (get_nowait q) as [[y q1]|] eqn:Hget; [|discriminate].
    destruct (decide (x = y)) as [<-|]; [|discriminate].
    destruct (task_done q1) as [q2|] eqn:Hdone; [|discriminate].
    intros [= <-]. exact (step_discard w q x q1 q2 Hget Hdone).
  - destruct (worker_step w q true) as [[[ev' w'] q']|] eqn:Hw; [|discriminate].
    destruct (decide (EvSay text = ev')) as [<-|]; [|discriminate].
    intros [= <-]. exact (step_worker w q true _ w' q' Hw).
  - destruct (worker_step w q ok) as [[[ev' w'] q']|] eqn:Hw; [|discriminate].
    destruct (decide (EvReturn ok = ev')) as [<-|]; [|discriminate].
    intros [= <-]. exact (step_worker w q ok _ w' q' Hw).
  - destruct (worker_step w q true) as [[[ev' w'] q']|] eqn:Hw; [|discriminate].
    destruct (decide (EvBreak = ev')) as [<-|]; [|discriminate].
    intros [= <-]. exact (step_worker w q true _ w' q' Hw).
Qed.

Lemma run_cons (st st1 st2 : worker_state * Queue) (ev : event)
    (tr : list event) :
  step st ev st1 -> run st1 tr st2 -> run st (ev :: tr) st2.
Proof.
  intros Hstep Hrun. induction Hrun as [|tr sta ev' stb _ IH Hstep'].
  - exact (run_snoc st [] st ev st1 (run_nil st) Hstep).
  - exact (run_snoc st (ev :: tr) sta ev' stb IH Hstep').
Qed.

Lemma replay_run (tr : list event) (st st' : worker_state * Queue) :
  replay st tr = Some st' -> run st tr st'.
Proof.
  revert st. induction tr as [|ev tr IH]; intros st; cbn [replay].
  - intros [= <-]. apply run_nil.
  - destruct (step_fn st ev) as [st1|] eqn:Hs; [|discriminate].
    intros Hr. exact (run_cons st st1 st' ev tr (step_fn_sound _ _ _ Hs) (IH _ Hr)).
Qed.

(** Three phrases are put, the worker says the first and returns, the
    sentinel is put, the worker says the other two and stops. *)
Lemma tts_worker_fifo_witness :
  enqueued [EvPut (Some "P1"); EvPut (Some "P2"); EvPut (Some "P3");
            EvSay "P1"; EvReturn true; EvPut None; EvSay "P2";
            EvReturn false; EvSay "P3"; EvReturn true; EvBreak]
  = map Some ["P1"; "P2"; "P3"] ++ stop_mark Stopped ++ [].
Proof.
  refine (proj1 (proj2 (proj2
    (tts_worker_fifo
       [EvPut (Some "P1"); EvPut (Some "P2"); EvPut (Some "P3");
        EvSay "P1"; EvReturn true; EvPut None; EvSay "P2";
        EvReturn false; EvSay "P3"; EvReturn true; EvBreak]
       Stopped (mk_Queue 0 [] 1) _))) eq_refl).
  apply replay_run. vm_compute. reflexivity.
Defined.

(** ** The queue has no bound *)

(** C9: the speech queue is built by [queue.Queue()], without bound
    ([maxsize] 0), and stays so in every state the program reaches; so
    [put_nowait] on it never raises [Full]: in [update_clock] the branch
    that drops the phrase is not taken, and the phrase of an enabled
    tick in a new second is always appended to the queue. *)
Theorem tts_queue_never_full (tr : list event) (w : worker_state)
    (q : Queue) (Hrun : run (Idle, new_queue) tr (w, q)) :
  maxsize new_queue = 0 /\
  maxsize q = 0 /\
  (forall x, put_nowait q x =
             Ok (mk_Queue 0 (items q ++ [x]) (unfinished_tasks q + 1))) /\
  (forall x, put_nowait q x <> Raise Full) /\
  (forall now self,
     speak_var self = true ->
     second now <> last_spoken_second self ->
     exists phrase,
       format_time_phrase (hour now) (minute now) (second now) = Ok phrase /\
       update_clock now self q =
         Ok (mk_PhilosopherClock true (second now),
             mk_Queue 0 (items q ++ [Some phrase]) (unfinished_tasks q + 1))).
Proof.
  pose proof (run_inv tr (w, q) Hrun) as (_ & _ & _ & _ & Hm).
  cbn [snd] in Hm.
  assert (Hput : forall x, put_nowait q x =
            Ok (mk_Queue 0 (items q ++ [x]) (unfinished_tasks q + 1))).
  { intros x. rewrite put_nowait_unbounded by lia. rewrite Hm. reflexivity. }
  split; [reflexivity|]. split; [exact Hm|]. split; [exact Hput|]. split.
  - intros x. rewrite Hput. discriminate.
  - intros now self Hen Hsec.
    destruct (format_time_phrase_ok (hour now) (minute now) (second now))
      as (phil & template & body & _ & _ & _ & _ & Hr).
    eexists. split; [exact Hr|].
    unfold update_clock. cbv zeta. rewrite Hen.
    replace (second now =? last_spoken_second self) with false
      by (symmetry; apply Z.eqb_neq; exact Hsec).
    cbn [negb]. rewrite Hr. cbn [bind]. rewrite Hput. reflexivity.
Qed.

(** With three phrases waiting, a fourth is accepted. *)
Lemma tts_queue_never_full_witness :
  put_nowait (mk_Queue 0 [Some "P1"; Some "P2"; Some "P3"] 3) (Some "P4")
  = Ok (mk_Queue 0 [Some "P1"; Some "P2"; Some "P3"; Some "P4"] 4).
Proof.
  refine (proj1 (proj2 (proj2
    (tts_queue_never_full
       [EvPut (Some "P1"); EvPut (Some "P2"); EvPut (Some "P3")]
       Idle (mk_Queue 0 [Some "P1"; Some "P2"; Some "P3"] 3) _))) (Some "P4")).
  apply replay_run. vm_compute. reflexivity.
Defined.

(** * Further properties *)

(** ** Labels and hours *)

(** X1: two hours, any two integers, have the same label exactly when
    they are congruent modulo 12; and no hour makes the list lookup
    fail. *)
Theorem hour_to_philosopher_same_label (h1 h2 : Z) :
  (hour_to_philosopher h1 = hour_to_philosopher h2 <->
   h1 mod 12 = h2 mod 12) /\
  is_ok (hour_to_philosopher h1) = true.
Proof.
  split; [split|].
  - rewrite (hour_to_philosopher_mod h1), (hour_to_philosopher_mod h2).
    by_mod12 h1; by_mod12 h2; rewrite Hc, Hc0; intros E;
      solve [reflexivity | vm_compute in E; discriminate E].
  - intros E.
    rewrite (hour_to_philosopher_mod h1), (hour_to_philosopher_mod h2), E.
    reflexivity.
  - destruct (hour_to_philosopher_total h1) as (phil & -> & _). reflexivity.
Qed.

(** X2: the name at position [i] of [PHILOSOPHERS] (from 0) is the label
    of the hours [i + 1] and [i + 13] of the day, hour 24 being hour 0:
    the hours the comments of the list give. *)
Theorem philosopher_hours (i : nat) (phil : string)
    (Hi : PHILOSOPHERS !! i = Some phil) :
  1 <= Z.of_nat i + 1 <= 12 /\
  hour_to_philosopher (Z.of_nat i + 1) = Ok phil /\
  hour_to_philosopher ((Z.of_nat i + 13) mod 24) = Ok phil.
Proof.
  assert (Hlt : (i < 12)%nat).
  { apply lookup_lt_Some in Hi. exact Hi. }
  do 12 (destruct i as [|i]; [injection Hi as <-; repeat split; lia|]).
  lia.
Qed.

Lemma philosopher_hours_witness :
  1 <= Z.of_nat 11 + 1 <= 12 /\
  hour_to_philosopher (Z.of_nat 11 + 1) = Ok "Habermas" /\
  hour_to_philosopher ((Z.of_nat 11 + 13) mod 24) = Ok "Habermas".
Proof. exact (philosopher_hours 11 "Habermas" eq_refl). Defined.

(** ** Where the hands point *)

Lemma all_pairs_lookup {A} (r : A -> A -> bool) (l : list A) :
  all_pairs r l = true ->
  forall (i j : nat) (x y : A),
    (i < j)%nat -> l !! i = Some x -> l !! j = Some y -> r x y = true.
Proof.
  induction l as [|a l IH]; intros Hall i j x y Hij Hx Hy.
  - discriminate Hx.
  - cbn [all_pairs] in Hall. apply andb_true_iff in Hall as [Ha Hl].
    destruct j as [|j]; [lia|]. cbn in Hy. destruct i as [|i].
    + injection Hx as <-. rewrite forallb_forall in Ha.
      apply Ha, list_elem_of_In, list_elem_of_lookup. eauto.
    + cbn in Hx. apply (IH Hl i j); [lia | assumption | assumption].
Qed.

Lemma lookup_map_seqZ {A} (f : Z -> A) (n t : Z) :
  0 <= t < n -> map f (seqZ 0 n) !! Z.to_nat t = Some (f t).
Proof.
  intros Ht. change (map f (seqZ 0 n)) with (f <$> seqZ 0 n).
  rewrite list_lookup_fmap, lookup_seqZ_lt by lia.
  cbn. f_equal. f_equal. lia.
Qed.

Lemma all_pairs_seqZ (f : Z -> float) (r : float -> float -> bool) (n : Z) :
  all_pairs r (map f (seqZ 0 n)) = true ->
  forall t1 t2, 0 <= t1 -> t1 < t2 -> t2 < n -> r (f t1) (f t2) = true.
Proof.
  intros Hall t1 t2 H0 H12 Hn.
  apply (all_pairs_lookup r _ Hall (Z.to_nat t1) (Z.to_nat t2));
    [lia | apply lookup_map_seqZ; lia | apply lookup_map_seqZ; lia].
Qed.

Lemma split_minutes (a b : Z) :
  0 <= b < 60 -> (a * 60 + b) / 60 = a /\ (a * 60 + b) mod 60 = b.
Proof.
  intros Hb. split.
  - symmetry. apply (Z.div_unique (a * 60 + b) 60 a b); lia.
  - symmetry. apply (Z.mod_unique (a * 60 + b) 60 a b); lia.
Qed.

Lemma hour_angle_at_eq (h m s : Z) :
  0 <= m < 60 ->
  hour_angle (draw_hands (mk_datetime h m s)) =
  hour_angle_at ((h mod 12) * 60 + m).
Proof.
  intros Hm. unfold hour_angle_at.
  destruct (split_minutes (h mod 12) m Hm) as [-> ->].
  cbn [draw_hands hour_angle hour minute]. rewrite Z.mod_mod by lia.
  reflexivity.
Qed.

Lemma minute_angle_at_eq (h m s : Z) :
  0 <= s < 60 ->
  minute_angle (draw_hands (mk_datetime h m s)) =
  minute_angle_at (m * 60 + s).
Proof.
  intros Hs. unfold minute_angle_at.
  destruct (split_minutes m s Hs) as [-> ->]. reflexivity.
Qed.

(** X3: for every reading with hour 0-23, minute 0-59 and second 0-59
    the three angles are on the dial: at least 0 and less than 360, the
    two binary64 values in the order of binary64 numbers. *)
Theorem draw_hands_on_dial (h m s : Z)
    (Hh : 0 <= h <= 23) (Hm : 0 <= m <= 59) (Hs : 0 <= s <= 59) :
  on_dial (hour_angle (draw_hands (mk_datetime h m s))) = true /\
  on_dial (minute_angle (draw_hands (mk_datetime h m s))) = true /\
  0 <= second_angle (draw_hands (mk_datetime h m s)) < 360.
Proof.
  pose proof (Z.mod_pos_bound h 12 ltac:(lia)) as Hb.
  split; [|split].
  - rewrite (hour_angle_at_eq h m s) by lia.
    apply (forall_range (fun t => on_dial (hour_angle_at t)) 0 720);
      [vm_compute; reflexivity | lia].
  - rewrite (minute_angle_at_eq h m s) by lia.
    apply (forall_range (fun t => on_dial (minute_angle_at t)) 0 3600);
      [vm_compute; reflexivity | lia].
  - cbn [draw_hands second_angle second]. lia.
Qed.

Lemma draw_hands_on_dial_witness :
  on_dial (hour_angle (draw_hands (mk_datetime 23 59 59))) = true /\
  on_dial (minute_angle (draw_hands (mk_datetime 23 59 59))) = true /\
  0 <= second_angle (draw_hands (mk_datetime 23 59 59)) < 360.
Proof. apply (draw_hands_on_dial 23 59 59); lia. Defined.

(** X4: within a half day the hour hand only moves forward, and within
    an hour so does the minute hand: a later reading has a strictly
    larger binary64 angle.  No rounding makes two different minutes (or
    seconds) share a position. *)
Theorem hands_move_forward (h1 m1 s1 h2 m2 s2 : Z)
    (H1 : 0 <= m1 <= 59 /\ 0 <= s1 <= 59)
    (H2 : 0 <= m2 <= 59 /\ 0 <= s2 <= 59) :
  ((h1 mod 12) * 60 + m1 < (h2 mod 12) * 60 + m2 ->
   PrimFloat.ltb (hour_angle (draw_hands (mk_datetime h1 m1 s1)))
                 (hour_angle (draw_hands (mk_datetime h2 m2 s2))) = true) /\
  (m1 * 60 + s1 < m2 * 60 + s2 ->
   PrimFloat.ltb (minute_angle (draw_hands (mk_datetime h1 m1 s1)))
                 (minute_angle (draw_hands (mk_datetime h2 m2 s2))) = true).
Proof.
  pose proof (Z.mod_pos_bound h1 12 ltac:(lia)).
  pose proof (Z.mod_pos_bound h2 12 ltac:(lia)).
  split; intros Hlt.
  - rewrite (hour_angle_at_eq h1 m1 s1), (hour_angle_at_eq h2 m2 s2) by lia.
    apply (all_pairs_seqZ hour_angle_at PrimFloat.ltb 720);
      [vm_compute; reflexivity | lia | lia | lia].
  - rewrite (minute_angle_at_eq h1 m1 s1), (minute_angle_at_eq h2 m2 s2) by lia.
    apply (all_pairs_seqZ minute_angle_at PrimFloat.ltb 3600);
      [vm_compute; reflexivity | lia | lia | lia].
Qed.

Lemma hands_move_forward_witness :
  PrimFloat.ltb (hour_angle (draw_hands (mk_datetime 9 30 0)))
                (hour_angle (draw_hands (mk_datetime 21 31 0))) = true /\
  PrimFloat.ltb (minute_angle (draw_hands (mk_datetime 9 30 0)))
                (minute_angle (draw_hands (mk_datetime 21 31 0))) = true.
Proof.
  destruct (hands_move_forward 9 30 0 21 31 0) as [Hh Hm]; [lia | lia |].
  split; [apply Hh | apply Hm]; reflexivity.
Defined.

(** ** The face and the hands on the canvas *)

Section DrawingProofs.

Variables radians cos sin : float -> float.

Lemma hour24_cases (h : Z) :
  0 <= h <= 23 ->
  h = 0 \/ h = 1 \/ h = 2 \/ h = 3 \/ h = 4 \/ h = 5 \/ h = 6 \/ h = 7 \/
  h = 8 \/ h = 9 \/ h = 10 \/ h = 11 \/ h = 12 \/ h = 13 \/ h = 14 \/
  h = 15 \/ h = 16 \/ h = 17 \/ h = 18 \/ h = 19 \/ h = 20 \/ h = 21 \/
  h = 22 \/ h = 23.
Proof. lia. Qed.

(** X5: [draw_face] on a new canvas raises nothing and leaves 26 items
    with the ids 1 to 26: the rim, the centre dot and, for each dial
    position [i] from 0 (at the top) to 11, a mark and a name.  The name
    at position [i] is the label [hour_to_philosopher] gives to the
    hours [i] and [i + 12], and it sits in the direction [i * 30]
    degrees, [RADIUS - 50] from the centre. *)
Theorem draw_face_names (i : Z) (Hi : 0 <= i <= 11) :
  exists face name,
    draw_face radians cos sin new_canvas = Ok (mk_Canvas 27 face) /\
    map item_id face = seqZ 1 26 /\
    face_ok face = true /\
    hour_to_philosopher i = Ok name /\
    hour_to_philosopher (i + 12) = Ok name /\
    face !! Z.to_nat (2 * i + 3) =
      Some (mk_item (2 * i + 4) (Text name)
              [Flt (fst (polar_to_cart radians cos sin CENTER CENTER
                           (Int (i * 30)) (Int (RADIUS - 50))));
               Flt (snd (polar_to_cart radians cos sin CENTER CENTER
                           (Int (i * 30)) (Int (RADIUS - 50))))] []).
Proof.
  assert (Hc : i = 0 \/ i = 1 \/ i = 2 \/ i = 3 \/ i = 4 \/ i = 5 \/
               i = 6 \/ i = 7 \/ i = 8 \/ i = 9 \/ i = 10 \/ i = 11) by lia.
  repeat (destruct Hc as [Hc | Hc]); subst i;
    (eexists _, _; split; [vm_compute; reflexivity|];
     repeat split; vm_compute; reflexivity).
Qed.

End DrawingProofs.

Lemma draw_face_names_witness :
  exists face name,
    draw_face (fun x => x) (fun x => x) (fun x => x) new_canvas
      = Ok (mk_Canvas 27 face) /\
    map item_id face = seqZ 1 26 /\
    face_ok face = true /\
    hour_to_philosopher 0 = Ok name /\
    hour_to_philosopher (0 + 12) = Ok name /\
    face !! Z.to_nat (2 * 0 + 3) =
      Some (mk_item (2 * 0 + 4) (Text name)
              [Flt (fst (polar_to_cart (fun x => x) (fun x => x) (fun x => x)
                           CENTER CENTER (Int (0 * 30)) (Int (RADIUS - 50))));
               Flt (snd (polar_to_cart (fun x => x) (fun x => x) (fun x => x)
                           CENTER CENTER (Int (0 * 30)) (Int (RADIUS - 50))))] []).
Proof.
  apply (draw_face_names (fun x => x) (fun x => x) (fun x => x) 0). lia.
Defined.

(** ** Redrawing the hands *)

Lemma filter_all {A} (P : A -> Prop) `{!forall x, Decision (P x)} (l : list A) :
  Forall P l -> filter P l = l.
Proof.
  induction 1 as [|x l Hx _ IH]; [reflexivity|].
  rewrite filter_cons_True by exact Hx. rewrite IH. reflexivity.
Qed.

Lemma face_ok_Forall (face : list canvas_item) :
  face_ok face = true ->
  Forall (fun it => 1 <= item_id it <= 26 /\ item_tags it = []) face.
Proof.
  unfold face_ok. rewrite forallb_forall. intros Hall.
  apply Forall_forall. intros it Hin.
  specialize (Hall it (proj1 (list_elem_of_In _ _) Hin)).
  apply andb_true_iff in Hall as [Hall Ht].
  apply andb_true_iff in Hall as [H1 H2].
  apply bool_decide_eq_true_1 in Ht.
  apply Z.leb_le in H1, H2. split; [lia | exact Ht].
Qed.

Lemma delete_id_face (n id : Z) (face rest : list canvas_item) :
  face_ok face = true -> 27 <= id ->
  delete_id (mk_Canvas n (face ++ rest)) id =
  mk_Canvas n (face ++ filter (fun it => item_id it <> id) rest).
Proof.
  intros Hf Hid. unfold delete_id. cbn [next_id canvas_items]. f_equal.
  rewrite filter_app. f_equal. apply filter_all.
  eapply Forall_impl; [exact (face_ok_Forall face Hf)|].
  cbn. intros it [Hi _]. lia.
Qed.

Lemma delete_tag_face (n : Z) (tag : string) (face rest : list canvas_item) :
  face_ok face = true ->
  delete_tag (mk_Canvas n (face ++ rest)) tag =
  mk_Canvas n (face ++ filter (fun it => tag ∉ item_tags it) rest).
Proof.
  intros Hf. unfold delete_tag. cbn [next_id canvas_items]. f_equal.
  rewrite filter_app. f_equal. apply filter_all.
  eapply Forall_impl; [exact (face_ok_Forall face Hf)|].
  cbn. intros it [_ ->]. apply not_elem_of_nil.
Qed.

Lemma delete_old_hands (face : list canvas_item) (k : Z)
    (c1 c2 c3 c4 : list num) (t : string) :
  face_ok face = true -> 27 <= k ->
  delete_if (delete_if (delete_if
    (mk_Canvas (k + 4)
       (face ++ [mk_item k Line c1 []; mk_item (k + 1) Line c2 [];
                 mk_item (k + 2) Line c3 [];
                 mk_item (k + 3) (Text t) c4 ["digital"]]))
    (Some k)) (Some (k + 1))) (Some (k + 2))
  = mk_Canvas (k + 4) (face ++ [mk_item (k + 3) (Text t) c4 ["digital"]]).
Proof.
  intros Hf Hk. unfold delete_if, truthy.
  replace (k =? 0) with false by (symmetry; apply Z.eqb_neq; lia).
  replace (k + 1 =? 0) with false by (symmetry; apply Z.eqb_neq; lia).
  replace (k + 2 =? 0) with false by (symmetry; apply Z.eqb_neq; lia).
  cbn [negb].
  rewrite delete_id_face by (assumption || lia).
  rewrite !filter_cons, filter_nil. cbn [item_id].
  repeat case_decide; try lia.
  rewrite delete_id_face by (assumption || lia).
  rewrite !filter_cons, filter_nil. cbn [item_id].
  repeat case_decide; try lia.
  rewrite delete_id_face by (assumption || lia).
  rewrite !filter_cons, filter_nil. cbn [item_id].
  repeat case_decide; try lia.
  reflexivity.
Qed.

Lemma delete_old_readout (face : list canvas_item) (n : Z)
    (old l1 l2 l3 : canvas_item) :
  face_ok face = true ->
  item_tags old = ["digital"] ->
  item_tags l1 = [] -> item_tags l2 = [] -> item_tags l3 = [] ->
  delete_tag (mk_Canvas n (face ++ [old; l1; l2; l3])) "digital"
  = mk_Canvas n (face ++ [l1; l2; l3]).
Proof.
  intros Hf Ho H1 H2 H3. rewrite delete_tag_face by exact Hf.
  rewrite !filter_cons, filter_nil. rewrite Ho, H1, H2, H3.
  repeat case_decide; try reflexivity; exfalso; set_solver.
Qed.

Section CanvasProofs.
Variables radians cos sin : float -> float.

Lemma draw_hands_on_first (face : list canvas_item) (now : datetime) :
  face_ok face = true ->
  draw_hands_on radians cos sin now (mk_Window (mk_Canvas 27 face) None None None)
  = drawn radians cos sin face 27 now.
Proof.
  intros Hf. unfold draw_hands_on, drawn, hand_items.
  cbn [canvas hour_hand min_hand sec_hand delete_if].
  unfold polar_to_cart. cbv zeta. cbn [fst snd].
  unfold create. cbn [next_id canvas_items fst snd].
  rewrite <- !app_assoc. cbn [app].
  rewrite delete_tag_face by exact Hf.
  rewrite !filter_cons, filter_nil. cbn [item_tags].
  repeat case_decide; try (exfalso; set_solver).
  cbn [next_id canvas_items]. rewrite <- !app_assoc. cbn [app].
  reflexivity.
Qed.

Lemma draw_hands_on_redraw (face : list canvas_item) (k : Z)
    (now now' : datetime) :
  face_ok face = true -> 27 <= k ->
  draw_hands_on radians cos sin now' (drawn radians cos sin face k now)
  = drawn radians cos sin face (k + 4) now'.
Proof.
  intros Hf Hk. unfold draw_hands_on, drawn, hand_items.
  cbn [canvas hour_hand min_hand sec_hand].
  unfold polar_to_cart. cbv zeta. cbn [fst snd].
  rewrite (delete_old_hands face k) by assumption.
  unfold create. cbn [next_id canvas_items fst snd].
  rewrite <- !app_assoc. cbn [app].
  rewrite (delete_old_readout face) by (assumption || reflexivity).
  cbn [next_id canvas_items]. rewrite <- !app_assoc. cbn [app].
  replace (k + 4 + 1 + 1 + 1 + 1) with (k + 4 + 4) by lia.
  replace (k + 4 + 1 + 1 + 1) with (k + 4 + 3) by lia.
  replace (k + 4 + 1 + 1) with (k + 4 + 2) by lia.
  reflexivity.
Qed.

Lemma last_cons_shift {A} (l : list A) (a d : A) :
  List.last (a :: l) d = List.last l a.
Proof.
  revert a d. induction l as [|b l IH]; intros a d; [reflexivity|].
  change (List.last (a :: b :: l) d) with (List.last (b :: l) d).
  rewrite (IH b d), (IH b a). reflexivity.
Qed.

Lemma draw_hands_all_drawn (face : list canvas_item) (nows : list datetime)
    (k : Z) (now : datetime) :
  face_ok face = true -> 27 <= k ->
  draw_hands_all radians cos sin nows (drawn radians cos sin face k now)
  = drawn radians cos sin face (k + 4 * Z.of_nat (length nows))
          (List.last nows now).
Proof.
  intros Hf. revert k now.
  induction nows as [|now' nows IH]; intros k now Hk.
  - cbn. rewrite Z.add_0_r. reflexivity.
  - change (draw_hands_all radians cos sin (now' :: nows)
              (drawn radians cos sin face k now))
      with (draw_hands_all radians cos sin nows
              (draw_hands_on radians cos sin now'
                 (drawn radians cos sin face k now))).
    rewrite draw_hands_on_redraw by assumption.
    rewrite IH by lia.
    replace (k + 4 + 4 * Z.of_nat (length nows))
      with (k + 4 * Z.of_nat (length (now' :: nows)))
      by (cbn [length]; lia).
    f_equal. symmetry. apply last_cons_shift.
Qed.

Lemma draw_face_ok :
  exists face,
    draw_face radians cos sin new_canvas = Ok (mk_Canvas 27 face) /\
    map item_id face = seqZ 1 26 /\
    face_ok face = true.
Proof. eexists. repeat split; vm_compute; reflexivity. Qed.

(** X6: however often the hands are redrawn, the canvas holds the 26
    items of the face, untouched, and on top of them exactly the three
    hands and the readout of the last reading: 30 items with distinct
    ids, the old hands and the old readout being deleted each time; the
    window remembers the ids of the three hands now on the canvas. *)
Theorem redraw_keeps_one_set_of_hands (now0 : datetime)
    (nows : list datetime) :
  exists face win0,
    init_window radians cos sin = Ok win0 /\
    canvas win0 = mk_Canvas 27 face /\
    canvas_items (canvas (draw_hands_all radians cos sin (now0 :: nows) win0))
      = face ++ hand_items radians cos sin
                  (27 + 4 * Z.of_nat (length nows)) (List.last nows now0) /\
    length (canvas_items
              (canvas (draw_hands_all radians cos sin (now0 :: nows) win0)))
      = 30%nat /\
    NoDup (map item_id
             (canvas_items
                (canvas (draw_hands_all radians cos sin (now0 :: nows) win0)))) /\
    hour_hand (draw_hands_all radians cos sin (now0 :: nows) win0)
      = Some (27 + 4 * Z.of_nat (length nows)) /\
    min_hand (draw_hands_all radians cos sin (now0 :: nows) win0)
      = Some (27 + 4 * Z.of_nat (length nows) + 1) /\
    sec_hand (draw_hands_all radians cos sin (now0 :: nows) win0)
      = Some (27 + 4 * Z.of_nat (length nows) + 2).
Proof.
  destruct draw_face_ok as (face & Hface & Hids & Hok).
  exists face, (mk_Window (mk_Canvas 27 face) None None None).
  split; [unfold init_window; rewrite Hface; reflexivity|].
  split; [reflexivity|].
  change (draw_hands_all radians cos sin (now0 :: nows)
            (mk_Window (mk_Canvas 27 face) None None None))
    with (draw_hands_all radians cos sin nows
            (draw_hands_on radians cos sin now0
               (mk_Window (mk_Canvas 27 face) None None None))).
  rewrite draw_hands_on_first by exact Hok.
  rewrite draw_hands_all_drawn by (assumption || lia).
  unfold drawn. cbn [canvas canvas_items hour_hand min_hand sec_hand].
  split; [reflexivity|]. split; [|split; [|repeat split]].
  - rewrite length_app. cbn [hand_items length].
    apply (f_equal (@length Z)) in Hids.
    rewrite length_map, length_seqZ in Hids. rewrite Hids. reflexivity.
  - rewrite map_app, Hids. cbn [hand_items map item_id].
    apply NoDup_app. split; [apply NoDup_seqZ|]. split.
    + intros x Hx Hin. apply elem_of_seqZ in Hx.
      set_unfold in Hin. lia.
    + repeat (apply NoDup_cons; split; [set_unfold; lia|]).
      apply NoDup_nil_2.
Qed.

(** X7: at every full hour the hour hand points at the name of the
    philosopher who speaks: the tip of the hand drawn for [h]:00:00 and
    the name [hour_to_philosopher h] on the face lie in the same
    direction from the centre, the one of [(h mod 12) * 30] degrees, the
    tip at half the radius, the name at [RADIUS - 50]. *)
Theorem hour_hand_points_at_speaker (h : Z) (Hh : 0 <= h <= 23) :
  exists face name,
    draw_face radians cos sin new_canvas = Ok (mk_Canvas 27 face) /\
    hour_to_philosopher h = Ok name /\
    let theta := radians (float_of_int ((h mod 12) * 30 - 90)) in
    face !! Z.to_nat (2 * (h mod 12) + 3) =
      Some (mk_item (2 * (h mod 12) + 4) (Text name)
              [Flt (float_of_int CENTER
                    + float_of_int (RADIUS - 50) * cos theta)%float;
               Flt (float_of_int CENTER
                    + float_of_int (RADIUS - 50) * sin theta)%float] []) /\
    canvas_items
      (canvas (draw_hands_on radians cos sin (mk_datetime h 0 0)
                 (mk_Window (mk_Canvas 27 face) None None None)))
      !! 26%nat =
      Some (mk_item 27 Line
              [Int CENTER; Int CENTER;
               Flt (float_of_int CENTER
                    + float_of_int RADIUS * 0.5 * cos theta)%float;
               Flt (float_of_int CENTER
                    + float_of_int RADIUS * 0.5 * sin theta)%float] []).
Proof.
  destruct (hour24_cases h Hh) as
    [-> | [-> | [-> | [-> | [-> | [-> | [-> | [-> | [-> | [-> | [-> | [->
    | [-> | [-> | [-> | [-> | [-> | [-> | [-> | [-> | [-> | [-> | [->
    | ->]]]]]]]]]]]]]]]]]]]]]]];
    (eexists _, _; split; [vm_compute; reflexivity|];
     split; [vm_compute; reflexivity|];
     cbv zeta; split; vm_compute; reflexivity).
Qed.

End CanvasProofs.

Lemma hour_hand_points_at_speaker_witness :
  exists face name,
    draw_face (fun x => x) (fun x => x) (fun x => x) new_canvas
      = Ok (mk_Canvas 27 face) /\
    hour_to_philosopher 15 = Ok name /\
    name = "Hegel".
Proof.
  destruct (hour_hand_points_at_speaker (fun x => x) (fun x => x) (fun x => x) 15)
    as (face & name & Hf & Hn & _); [lia|].
  exists face, name. split; [exact Hf|]. split; [exact Hn|].
  vm_compute in Hn. injection Hn as <-. reflexivity.
Defined.

(** ** Ticks *)

Lemma phrase_of_ok (now : datetime) : exists phrase, phrase_of now = Ok phrase.
Proof.
  destruct (format_time_phrase_ok (hour now) (minute now) (second now))
    as (phil & template & body & _ & _ & _ & _ & Hr).
  eexists. exact Hr.
Qed.

Lemma update_clock_fresh (now : datetime) (self : PhilosopherClock)
    (q : Queue) (phrase : string) :
  speak_var self = true ->
  second now <> last_spoken_second self ->
  maxsize q <= 0 ->
  phrase_of now = Ok phrase ->
  update_clock now self q =
    Ok (mk_PhilosopherClock true (second now),
        mk_Queue (maxsize q) (items q ++ [Some phrase])
                 (unfinished_tasks q + 1)).
Proof.
  intros Hen Hsec Hm Hp. unfold update_clock. cbv zeta. rewrite Hen.
  replace (second now =? last_spoken_second self) with false
    by (symmetry; apply Z.eqb_neq; exact Hsec).
  cbn [negb]. unfold phrase_of in Hp. rewrite Hp. cbn [bind].
  rewrite put_nowait_unbounded by exact Hm. reflexivity.
Qed.

Lemma update_clock_stale (now : datetime) (self : PhilosopherClock)
    (q : Queue) :
  second now = last_spoken_second self ->
  update_clock now self q = Ok (self, q).
Proof.
  intros Hsec. unfold update_clock. cbv zeta.
  rewrite Hsec, Z.eqb_refl. cbn [negb]. destruct (speak_var self); reflexivity.
Qed.

Lemma update_clock_enabled (now : datetime) (self : PhilosopherClock)
    (q : Queue) :
  speak_var self = true ->
  second now <> last_spoken_second self ->
  exists q',
    update_clock now self q = Ok (mk_PhilosopherClock true (second now), q').
Proof.
  intros Hen Hsec. destruct (phrase_of_ok now) as (phrase & Hp).
  unfold update_clock. cbv zeta. rewrite Hen.
  replace (second now =? last_spoken_second self) with false
    by (symmetry; apply Z.eqb_neq; exact Hsec).
  cbn [negb]. unfold phrase_of in Hp. rewrite Hp. cbn [bind].
  destruct (put_nowait_cases q (Some phrase)) as [-> | ->];
    eexists; reflexivity.
Qed.

(** X8: over any sequence of ticks with speech enabled and the queue
    without bound, the phrases appended to the queue are, in order,
    those of the readings whose second differs from the second of the
    reading announced before it; every other tick adds nothing; at the
    end [last_spoken_second] is the second of the last reading. *)
Theorem ticks_enqueue_fresh (nows : list datetime)
    (self : PhilosopherClock) (q : Queue)
    (Hen : speak_var self = true) (Hm : maxsize q <= 0) :
  exists phrases,
    mapM phrase_of (fresh (last_spoken_second self) nows) = Ok phrases /\
    ticks nows self q =
      Ok (mk_PhilosopherClock true
            (List.last (map second nows) (last_spoken_second self)),
          mk_Queue (maxsize q) (items q ++ map Some phrases)
                   (unfinished_tasks q + Z.of_nat (length phrases))).
Proof.
  revert self q Hen Hm.
  induction nows as [|now rest IH]; intros self q Hen Hm.
  - exists []. split; [reflexivity|]. cbn.
    rewrite app_nil_r, Z.add_0_r. destruct self, q. cbn in Hen. subst.
    reflexivity.
  - cbn [fresh ticks]. destruct (second now =? last_spoken_second self) eqn:E.
    + apply Z.eqb_eq in E.
      rewrite update_clock_stale by exact E. cbn [bind fst snd].
      destruct (IH self q Hen Hm) as (phrases & Hp & Ht).
      exists phrases. split; [exact Hp|]. rewrite Ht.
      do 3 f_equal. cbn [map]. rewrite last_cons_shift, E. reflexivity.
    + apply Z.eqb_neq in E.
      destruct (phrase_of_ok now) as (phrase & Hph).
      rewrite (update_clock_fresh now self q phrase) by assumption.
      cbn [bind fst snd].
      destruct (IH (mk_PhilosopherClock true (second now))
                   (mk_Queue (maxsize q) (items q ++ [Some phrase])
                             (unfinished_tasks q + 1)) eq_refl Hm)
        as (phrases & Hp & Ht).
      cbn [last_spoken_second maxsize items unfinished_tasks] in Hp, Ht.
      exists (phrase :: phrases). split.
      * cbn [mapM]. rewrite Hph. cbn [bind]. rewrite Hp. reflexivity.
      * rewrite Ht. cbn [map length]. rewrite <- app_assoc. cbn [app].
        rewrite last_cons_shift. do 3 f_equal. lia.
Qed.

Lemma ticks_enqueue_fresh_witness :
  ticks [mk_datetime 9 5 7; mk_datetime 9 5 7; mk_datetime 9 5 8]
        init_clock new_queue
  = Ok (mk_PhilosopherClock true 8,
        mk_Queue 0
          [Some "Herder says: Time tells culture: it's 9 hours and 05 minutes, 07 seconds.";
           Some "Herder says: Time tells culture: it's 9 hours and 05 minutes, 08 seconds."]
          2).
Proof.
  destruct (ticks_enqueue_fresh
              [mk_datetime 9 5 7; mk_datetime 9 5 7; mk_datetime 9 5 8]
              init_clock new_queue eq_refl)
    as (phrases & Hp & Ht); [cbn; lia|].
  vm_compute in Hp. injection Hp as <-. exact Ht.
Defined.

(** X9: the test for a repeated second looks at the seconds field only:
    after a tick with speech enabled, a tick at any reading with the
    same second, be it a minute or an hour later, enqueues nothing and
    changes nothing. *)
Theorem update_clock_same_second_skipped (now1 now2 : datetime)
    (self : PhilosopherClock) (q : Queue)
    (Hen : speak_var self = true)
    (Hsec : second now2 = second now1) :
  exists self' q',
    update_clock now1 self q = Ok (self', q') /\
    last_spoken_second self' = second now1 /\
    update_clock now2 self' q' = Ok (self', q').
Proof.
  destruct (Z.eq_dec (second now1) (last_spoken_second self)) as [E | E].
  - exists self, q. rewrite update_clock_stale by exact E.
    split; [reflexivity|]. split; [symmetry; exact E|].
    apply update_clock_stale. congruence.
  - destruct (update_clock_enabled now1 self q Hen E) as (q' & Hu).
    exists (mk_PhilosopherClock true (second now1)), q'.
    split; [exact Hu|]. split; [reflexivity|].
    apply update_clock_stale. exact Hsec.
Qed.

Lemma update_clock_same_second_skipped_witness :
  exists self' q',
    update_clock (mk_datetime 9 5 7) init_clock new_queue = Ok (self', q') /\
    last_spoken_second self' = 7 /\
    update_clock (mk_datetime 10 6 7) self' q' = Ok (self', q').
Proof.
  exact (update_clock_same_second_skipped (mk_datetime 9 5 7)
           (mk_datetime 10 6 7) init_clock new_queue eq_refl eq_refl).
Defined.

(** ** Muting twice *)

Lemma mute_now_explicit (self : PhilosopherClock) (q : Queue) :
  Z.of_nat (length (items q)) <= unfinished_tasks q ->
  maxsize q <= 0 ->
  mute_now self q =
    Ok (mk_PhilosopherClock false (last_spoken_second self),
        if speak_var self
        then mk_Queue (maxsize q) [Some MUTED_NOTICE]
               (unfinished_tasks q - Z.of_nat (length (items q)) + 1)
        else mk_Queue (maxsize q) []
               (unfinished_tasks q - Z.of_nat (length (items q)))).
Proof.
  intros Hu Hm. unfold mute_now. rewrite (drain_empties q Hu). cbn [bind].
  destruct (speak_var self); [|reflexivity].
  rewrite put_nowait_unbounded by exact Hm. reflexivity.
Qed.

(** X10: "Mute Now" pressed twice in a row (the worker not taking an
    item in between) leaves the queue empty: the second call discards
    the notice the first one enqueued and, speech being off by then,
    enqueues none.  Every item is reported done as it is discarded. *)
Theorem mute_now_twice (self : PhilosopherClock) (q : Queue)
    (Hu : Z.of_nat (length (items q)) <= unfinished_tasks q)
    (Hm : maxsize q <= 0) :
  exists self1 q1 q2,
    mute_now self q = Ok (self1, q1) /\
    mute_now self1 q1 = Ok (self1, q2) /\
    speak_var self1 = false /\
    items q2 = [] /\
    unfinished_tasks q2 = unfinished_tasks q - Z.of_nat (length (items q)).
Proof.
  rewrite (mute_now_explicit self q Hu Hm).
  destruct (speak_var self); eexists _, _, _;
    (split; [reflexivity|]);
    (rewrite mute_now_explicit;
       cbn [items unfinished_tasks maxsize length speak_var
            last_spoken_second]; [|lia|lia]);
    repeat split; cbn; lia.
Qed.

Lemma mute_now_twice_witness :
  exists self1 q1 q2,
    mute_now init_clock (mk_Queue 0 [Some "P1"; Some "P2"] 3) = Ok (self1, q1) /\
    mute_now self1 q1 = Ok (self1, q2) /\
    speak_var self1 = false /\
    items q2 = [] /\
    unfinished_tasks q2 = 3 - Z.of_nat 2.
Proof.
  apply (mute_now_twice init_clock (mk_Queue 0 [Some "P1"; Some "P2"] 3));
    cbn; lia.
Defined.

(** ** The worker left alone *)

Lemma worker_alone_texts (ps : list string) (fuel : nat) (mx unf : Z)
    (tail : list item) :
  Z.of_nat (length ps) <= unf ->
  worker_alone (2 * length ps + fuel) Idle
    (mk_Queue mx (map Some ps ++ tail) unf) =
  (ps ++ fst (fst (worker_alone fuel Idle
                     (mk_Queue mx tail (unf - Z.of_nat (length ps))))),
   snd (fst (worker_alone fuel Idle
               (mk_Queue mx tail (unf - Z.of_nat (length ps))))),
   snd (worker_alone fuel Idle
          (mk_Queue mx tail (unf - Z.of_nat (length ps))))).
Proof.
  revert unf. induction ps as [|p ps IH]; intros unf Hu.
  - cbn [length map app Nat.mul Nat.add]. rewrite Z.sub_0_r.
    destruct (worker_alone fuel Idle (mk_Queue mx tail unf)) as [[? ?] ?].
    reflexivity.
  - cbn [length] in *.
    replace (2 * S (length ps) + fuel)%nat
      with (S (S (2 * length ps + fuel))) by lia.
    cbn [worker_alone worker_step map app get_nowait items maxsize
         unfinished_tasks said_of].
    unfold task_done. cbn [items maxsize unfinished_tasks].
    replace (unf - 1 <? 0) with false by (symmetry; apply Z.ltb_ge; lia).
    rewrite IH by lia.
    replace (unf - 1 - Z.of_nat (length ps))
      with (unf - Z.of_nat (S (length ps))) by lia.
    reflexivity.
Qed.

(** X11: shutdown.  With the texts [ps] queued, then [quit_app], then
    whatever is put later, the worker on its own hands the texts [ps]
    to the engine in the order they were put, takes the sentinel and
    stops; nothing put after the sentinel is ever said, it stays in the
    queue. *)
Theorem quit_app_stops_worker (ps : list string) (later : list item)
    (fuel : nat) (Hfuel : (2 * length ps + 1 <= fuel)%nat) :
  exists q0 q1,
    put_all new_queue (map Some ps) = Ok q0 /\
    put_all (quit_app q0) later = Ok q1 /\
    items q1 = map Some ps ++ None :: later /\
    worker_alone fuel Idle q1 =
      (ps, Stopped, mk_Queue 0 later (1 + Z.of_nat (length later))).
Proof.
  rewrite put_all_unbounded by (cbn; lia). eexists _, _.
  split; [reflexivity|].
  unfold quit_app. rewrite put_nowait_unbounded by (cbn; lia).
  rewrite put_all_unbounded by (cbn; lia).
  cbn [maxsize items unfinished_tasks new_queue app].
  rewrite <- app_assoc. cbn [app].
  split; [reflexivity|]. split; [reflexivity|].
  replace fuel with (2 * length ps + S (fuel - 2 * length ps - 1))%nat by lia.
  rewrite length_map.
  rewrite worker_alone_texts by lia.
  cbn [worker_alone worker_step get_nowait items maxsize unfinished_tasks
       said_of].
  destruct (fuel - 2 * length ps - 1)%nat; cbn [worker_alone worker_step fst snd];
    rewrite app_nil_r; do 2 f_equal; lia.
Qed.

Lemma quit_app_stops_worker_witness :
  exists q0 q1,
    put_all new_queue (map Some ["P1"; "P2"]) = Ok q0 /\
    put_all (quit_app q0) [Some "late"] = Ok q1 /\
    items q1 = map Some ["P1"; "P2"] ++ None :: [Some "late"] /\
    worker_alone 9 Idle q1 =
      (["P1"; "P2"], Stopped,
       mk_Queue 0 [Some "late"] (1 + Z.of_nat (length [Some "late"]))).
Proof.
  apply (quit_app_stops_worker ["P1"; "P2"] [Some "late"] 9). cbn. lia.
Defined.

(** X12: without a sentinel the worker on its own empties the queue: it
    hands every queued text to the engine, in the order of the puts,
    reports each one done, and then waits, idle, at the empty queue with
    no task left unfinished. *)
Theorem worker_alone_empties_queue (ps : list string) (fuel : nat)
    (Hfuel : (2 * length ps <= fuel)%nat) :
  exists q0,
    put_all new_queue (map Some ps) = Ok q0 /\
    items q0 = map Some ps /\
    worker_alone fuel Idle q0 = (ps, Idle, mk_Queue 0 [] 0).
Proof.
  rewrite put_all_unbounded by (cbn; lia). eexists.
  split; [reflexivity|].
  cbn [maxsize items unfinished_tasks new_queue app].
  split; [reflexivity|].
  replace fuel with (2 * length ps + (fuel - 2 * length ps))%nat by lia.
  rewrite length_map.
  rewrite <- (app_nil_r (map Some ps)).
  rewrite worker_alone_texts by lia.
  replace (0 + Z.of_nat (length ps) - Z.of_nat (length ps)) with 0 by lia.
  destruct (fuel - 2 * length ps)%nat; cbn [worker_alone worker_step
    get_nowait items fst snd]; rewrite app_nil_r; reflexivity.
Qed.

Lemma worker_alone_empties_queue_witness :
  exists q0,
    put_all new_queue (map Some ["P1"; "P2"; "P3"]) = Ok q0 /\
    items q0 = map Some ["P1"; "P2"; "P3"] /\
    worker_alone 6 Idle q0 = (["P1"; "P2"; "P3"], Idle, mk_Queue 0 [] 0).
Proof.
  apply (worker_alone_empties_queue ["P1"; "P2"; "P3"] 6). cbn. lia.
Defined.

(** ** The program as a whole *)

Lemma run_app (st st1 st2 : worker_state * Queue) (tr tr' : list event) :
  run st tr st1 -> run st1 tr' st2 -> run st (tr ++ tr') st2.
Proof.
  intros H1 H2. induction H2 as [|tr' sta ev stb _ IH Hstep].
  - rewrite app_nil_r. exact H1.
  - rewrite app_assoc. exact (run_snoc st _ sta ev stb IH Hstep).
Qed.

(** The loop of [mute_now], seen from the worker: one discard after the
    other. *)
Lemma drain_run (w : worker_state) (mx : Z) (its : list item) (unf : Z) :
  Z.of_nat (length its) <= unf ->
  run (w, mk_Queue mx its unf) (map EvDiscard its)
      (w, mk_Queue mx [] (unf - Z.of_nat (length its))).
Proof.
  revert unf. induction its as [|x rest IH]; intros unf Hu.
  - cbn. rewrite Z.sub_0_r. apply run_nil.
  - cbn [length] in Hu. cbn [map].
    apply (run_cons _ (w, mk_Queue mx rest (unf - 1))).
    + apply (step_discard w _ x (mk_Queue mx rest unf)); [reflexivity|].
      unfold task_done. cbn [unfinished_tasks items maxsize].
      replace (unf - 1 <? 0) with false by (symmetry; apply Z.ltb_ge; lia).
      reflexivity.
    + replace (unf - Z.of_nat (length (x :: rest)))
        with (unf - 1 - Z.of_nat (length rest)) by (cbn [length]; lia).
      apply IH. lia.
Qed.

Lemma spoken_discards (its : list item) : spoken (map EvDiscard its) = [].
Proof. induction its as [|x rest IH]; [reflexivity | exact IH]. Qed.

Lemma enqueued_discards (its : list item) : enqueued (map EvDiscard its) = [].
Proof. induction its as [|x rest IH]; [reflexivity | exact IH]. Qed.

Lemma worker_step_no_put (w w' : worker_state) (q q' : Queue) (ok : bool)
    (ev : event) :
  worker_step w q ok = Some (ev, w', q') -> put_of ev = None.
Proof.
  destruct w; cbn [worker_step]; try discriminate.
  - destruct (get_nowait q) as [[[text|] q1]|]; intros [= <- <- <-];
      reflexivity.
  - destruct (task_done q); intros [= <- <- <-]; reflexivity.
Qed.

Lemma put_keeps_inv (p : Program) (c : PhilosopherClock) (x : item) :
  program_inv p -> expected_item x ->
  program_inv
    (mk_Program c (worker p)
       (mk_Queue (maxsize (tts_queue p)) (items (tts_queue p) ++ [x])
                 (unfinished_tasks (tts_queue p) + 1))
       (said p)).
Proof.
  intros (tr & Hrun & Hs & He) Hx.
  pose proof (run_inv tr _ Hrun) as (_ & _ & _ & _ & Hm). cbn [snd] in Hm.
  exists (tr ++ [EvPut x]). cbn [worker tts_queue said]. split; [|split].
  - eapply run_snoc; [exact Hrun|]. apply step_put.
    apply put_nowait_unbounded. lia.
  - rewrite spoken_snoc. cbn. rewrite app_nil_r. exact Hs.
  - rewrite enqueued_snoc. cbn. apply Forall_app. split; [exact He|].
    apply Forall_cons. split; [exact Hx | apply Forall_nil_2].
Qed.

Lemma do_action_inv (p : Program) (a : action) :
  program_inv p -> exists p', do_action p a = Ok p' /\ program_inv p'.
Proof.
  intros Hinv. pose proof Hinv as (tr & Hrun & Hs & He).
  pose proof (run_inv tr _ Hrun) as (_ & _ & Hu & _ & Hm).
  cbn [fst snd] in Hu, Hm.
  destruct a as [now | | | | ok]; cbn [do_action].
  - destruct (speak_var (clock p)) eqn:Hen.
    + destruct (Z.eq_dec (second now) (last_spoken_second (clock p))) as [E|E].
      * rewrite update_clock_stale by exact E. cbn [bind fst snd].
        eexists. split; [reflexivity|]. exists tr. auto.
      * destruct (phrase_of_ok now) as (phrase & Hp).
        rewrite (update_clock_fresh now _ _ phrase) by (assumption || lia).
        cbn [bind fst snd]. eexists. split; [reflexivity|].
        apply put_keeps_inv; [exact Hinv|]. right. eauto.
    + rewrite update_clock_disabled by exact Hen. cbn [bind fst snd].
      eexists. split; [reflexivity|]. exists tr. auto.
  - eexists. split; [reflexivity|]. exists tr. auto.
  - assert (Hu' : Z.of_nat (length (items (tts_queue p)))
                  <= unfinished_tasks (tts_queue p))
      by (destruct (worker p); cbn [busy] in Hu; lia).
    rewrite mute_now_explicit by (assumption || lia). cbn [bind fst snd].
    eexists. split; [reflexivity|].
    assert (Hd : program_inv
              (mk_Program (clock p) (worker p)
                 (mk_Queue (maxsize (tts_queue p)) []
                    (unfinished_tasks (tts_queue p)
                     - Z.of_nat (length (items (tts_queue p)))))
                 (said p))).
    { exists (tr ++ map EvDiscard (items (tts_queue p))).
      cbn [worker tts_queue said]. split; [|split].
      - eapply run_app; [exact Hrun|].
        destruct (tts_queue p) as [mx its unf]. apply drain_run. exact Hu'.
      - unfold spoken in *. rewrite omap_app.
        fold (spoken (map EvDiscard (items (tts_queue p)))).
        rewrite spoken_discards, app_nil_r. exact Hs.
      - unfold enqueued in *. rewrite omap_app.
        fold (enqueued (map EvDiscard (items (tts_queue p)))).
        rewrite enqueued_discards, app_nil_r. exact He. }
    destruct (speak_var (clock p)).
    + apply (put_keeps_inv _
               (mk_PhilosopherClock false (last_spoken_second (clock p)))
               (Some MUTED_NOTICE)) in Hd; [|left; reflexivity].
      cbn [worker tts_queue said maxsize items unfinished_tasks app] in Hd.
      exact Hd.
    + destruct Hd as (tr' & Hd). exists tr'. exact Hd.
  - eexists. split; [reflexivity|].
    unfold quit_app. rewrite put_nowait_unbounded by lia.
    apply put_keeps_inv; [exact Hinv | exact I].
  - destruct (worker_step (worker p) (tts_queue p) ok)
      as [[[ev w'] q']|] eqn:Hw.
    + eexists. split; [reflexivity|].
      exists (tr ++ [ev]). cbn [worker tts_queue said]. split; [|split].
      * eapply run_snoc; [exact Hrun|].
        exact (step_worker _ _ ok ev w' q' Hw).
      * rewrite spoken_snoc, Hs. destruct (said_of ev); reflexivity.
      * rewrite enqueued_snoc, (worker_step_no_put _ _ _ _ _ _ Hw).
        cbn. rewrite app_nil_r. exact He.
    + eexists. split; [reflexivity|]. exact Hinv.
Qed.

Lemma do_actions_inv (acts : list action) (p : Program) :
  program_inv p -> exists p', do_actions acts p = Ok p' /\ program_inv p'.
Proof.
  revert p. induction acts as [|a acts IH]; intros p Hinv.
  - exists p. split; [reflexivity | exact Hinv].
  - destruct (do_action_inv p a Hinv) as (p1 & H1 & Hinv1).
    destruct (IH p1 Hinv1) as (p' & H' & Hinv').
    exists p'. split; [|exact Hinv'].
    unfold do_actions in *. cbn [foldM]. rewrite H1. exact H'.
Qed.

Lemma init_program_inv : program_inv init_program.
Proof.
  exists []. split; [apply run_nil|]. split; [reflexivity | apply Forall_nil_2].
Qed.

(** X13: whatever the timer, the user and the worker thread do, in
    whatever order, no callback raises an exception, the worker thread
    does not die of one, and the queue stays without bound; the program
    is then in a state of worker and queue that a run of the transition
    system of [tts_worker] reaches, and that run handed to the engine
    the very texts the program did. *)
Theorem program_never_raises (acts : list action) :
  exists p tr,
    do_actions acts init_program = Ok p /\
    run (Idle, new_queue) tr (worker p, tts_queue p) /\
    spoken tr = said p /\
    worker p <> Crashed /\
    maxsize (tts_queue p) = 0 /\
    Z.of_nat (length (items (tts_queue p))) <= unfinished_tasks (tts_queue p).
Proof.
  destruct (do_actions_inv acts init_program init_program_inv)
    as (p & Hp & tr & Hrun & Hs & _).
  pose proof (run_inv tr _ Hrun) as (_ & _ & Hu & Hc & Hm).
  cbn [fst snd] in *.
  exists p, tr. repeat split; try assumption.
  destruct (worker p); cbn [busy] in Hu; lia.
Qed.

(** X14: whatever happens, every text the program hands to the speech
    engine is the phrase [format_time_phrase] makes for some reading, or
    the notice of [mute_now]; and every text waiting in the queue is one
    of these. *)
Theorem only_phrases_are_said (acts : list action) :
  exists p,
    do_actions acts init_program = Ok p /\
    (forall text, text ∈ said p ->
       text = MUTED_NOTICE \/ exists now, phrase_of now = Ok text) /\
    (forall text, Some text ∈ items (tts_queue p) ->
       text = MUTED_NOTICE \/ exists now, phrase_of now = Ok text).
Proof.
  destruct (do_actions_inv acts init_program init_program_inv)
    as (p & Hp & tr & Hrun & Hs & He).
  pose proof (run_inv tr _ Hrun) as (Hq & _). cbn [snd] in Hq.
  rewrite Forall_forall in He.
  exists p. split; [exact Hp|]. split.
  - intros text Hin. rewrite <- Hs in Hin.
    apply (He (Some text)).
    apply (elem_of_sublist (map Some (spoken tr))).
    + apply list_elem_of_fmap. exists text. split; [reflexivity | exact Hin].
    + rewrite Hq. apply sublist_inserts_r, spoken_sublist_dequeued.
  - intros text Hin. apply (He (Some text)).
    rewrite Hq. apply elem_of_app. right. exact Hin.
Qed.

(** ** The first tick *)

(** X15: the first tick of a new window always speaks: the initial
    [last_spoken_second], -1, is the second of no reading, so whatever
    the time at start-up the queue then holds exactly the phrase of that
    reading. *)
Theorem first_tick_speaks (now : datetime) (Hs : 0 <= second now <= 59) :
  exists phrase,
    phrase_of now = Ok phrase /\
    update_clock now init_clock new_queue =
      Ok (mk_PhilosopherClock true (second now),
          mk_Queue 0 [Some phrase] 1).
Proof.
  destruct (phrase_of_ok now) as (phrase & Hp).
  exists phrase. split; [exact Hp|].
  rewrite (update_clock_fresh now init_clock new_queue phrase);
    [reflexivity | reflexivity | cbn; lia | cbn; lia | exact Hp].
Qed.

Lemma first_tick_speaks_witness :
  exists phrase,
    phrase_of (mk_datetime 23 59 59) = Ok phrase /\
    update_clock (mk_datetime 23 59 59) init_clock new_queue =
      Ok (mk_PhilosopherClock true (second (mk_datetime 23 59 59)),
          mk_Queue 0 [Some phrase] 1).
Proof. apply (first_tick_speaks (mk_datetime 23 59 59)). cbn. lia. Defined.

(** ** No placeholder is left *)

Lemma no_brace_app (a b : string) :
  no_brace (a +:+ b) = no_brace a && no_brace b.
Proof.
  induction a as [|c a IH]; [reflexivity|].
  change (String c a +:+ b) with (String c (a +:+ b)).
  cbn [no_brace]. rewrite IH, !andb_assoc. reflexivity.
Qed.

Lemma no_brace_numerals (n : Z) :
  0 <= n < 100 ->
  no_brace (unpadded n) = true /\ no_brace (two_digits n) = true.
Proof.
  intros Hn. apply andb_true_iff.
  apply (forall_range
           (fun k => no_brace (unpadded k) && no_brace (two_digits k)) 0 100);
    [vm_compute; reflexivity | lia].
Qed.

Lemma own_template_plain (h : Z) :
  exists phil template,
    hour_to_philosopher h = Ok phil /\
    PHRASES !! phil = Some template /\
    forallb no_brace (phil :: literals template) = true.
Proof.
  rewrite hour_to_philosopher_mod.
  by_mod12 h; rewrite Hc; do 2 eexists;
    (split; [reflexivity|]);
    (split; [vm_compute; reflexivity|]);
    vm_compute; reflexivity.
Qed.

(** X16: for every hour 0-23, minute 0-59 and second 0-59 the phrase
    [format_time_phrase] returns contains no brace: every placeholder of
    the template was replaced, and by digits only. *)
Theorem format_time_phrase_no_placeholder (h m s : Z)
    (Hh : 0 <= h <= 23) (Hm : 0 <= m <= 59) (Hs : 0 <= s <= 59) :
  exists phrase,
    format_time_phrase h m s = Ok phrase /\ no_brace phrase = true.
Proof.
  destruct (own_template_fields h)
    as (phil & template & a & b & c & d & Hp & Ht & Hl & Hfmt).
  destruct (own_template_plain h) as (phil' & template' & Hp' & Ht' & Hnb).
  rewrite Hp in Hp'. injection Hp' as <-.
  rewrite Ht in Ht'. injection Ht' as <-.
  rewrite Hl in Hnb. cbn [forallb] in Hnb.
  unfold format_time_phrase, format_time_phrase_in.
  rewrite Hp. cbn [bind]. rewrite (dict_get_Some _ _ _ _ Ht).
  unfold time_kwargs. rewrite Hfmt. cbn [bind].
  eexists. split; [reflexivity|].
  rewrite (str_unpadded h), !zfill_two_digits by lia.
  destruct (no_brace_numerals h ltac:(lia)) as [Nh _].
  destruct (no_brace_numerals m ltac:(lia)) as [_ Nm].
  destruct (no_brace_numerals s ltac:(lia)) as [_ Ns].
  rewrite !no_brace_app. rewrite Nh, Nm, Ns.
  apply andb_true_iff in Hnb as [Hphil Hnb].
  apply andb_true_iff in Hnb as [Ha Hnb].
  apply andb_true_iff in Hnb as [Hb Hnb].
  apply andb_true_iff in Hnb as [Hc Hnb].
  apply andb_true_iff in Hnb as [Hd _].
  rewrite Hphil, Ha, Hb, Hc, Hd. reflexivity.
Qed.

Lemma format_time_phrase_no_placeholder_witness :
  exists phrase,
    format_time_phrase 6 30 15 = Ok phrase /\ no_brace phrase = true.
Proof. apply (format_time_phrase_no_placeholder 6 30 15); lia. Defined.
